(** * finance_bot: the question-answering core of [chatbot.py]

    A shallow embedding of [DataChatbot] (src/chatbot.py) and the proofs of
    the properties its specification states about [process_question].

    Modelling conventions.
    - A Python [str] is a Rocq [string]; the model is exact on ASCII text
      (characters above 127 are left alone by [lower]).
    - A DataFrame is the list of its rows, with the columns the core reads as
      record fields; a cell is [None] where pandas holds NaN.  Text columns
      hold strings or NaN, numeric columns hold numbers or NaN (what
      [pd.to_numeric(..., errors='coerce')] produces).  A text column that
      is NaN in every row of a table with rows has a float dtype, and [.str]
      fails on it, see [str_accessor].
    - A number is the rational it denotes ([Q]).  A numeric cell holds the
      value of a float64, or of an int64 in a column read as integers, NaN
      apart; infinities, the sign of a zero and integers from 2^53 on, which
      are rounded when they are formatted, are not modelled.  The formatting
      [f"{v:,.2f}"] rounds that rational to nearest, ties to even, as CPython
      does.
    - A sum is not computed here: float64 addition rounds, int64 addition
      wraps around, and numpy and pandas choose the order of the additions.
      [Series.sum] and the sum of a group are operations of the runtime, of
      which only the value of the empty sum is assumed, see [PyRuntime].
    - [self.holdings_df] and [self.trades_df] are [None] until [load_data]
      succeeds; every method is a computation over the object which may raise.
    - What CPython and pandas fix but do not document (the iteration order of
      a set, the regular-expression engine behind [Series.str.contains], the
      order numpy leaves ties in, the sums) is a parameter of the
      development, see [PyRuntime]. *)

From Stdlib Require Import Bool Arith List Lia ZArith QArith Qround Qabs Lqa.
From Stdlib Require Import Ascii String DecimalString.
From Stdlib Require Import Permutation Sorted.
Import ListNotations.

Local Open Scope list_scope.
Local Open Scope string_scope.

(* ================================================================= *)
(** ** Python strings *)

Module PyStr.

Definition nl : string := String (ascii_of_nat 10) "".
Definition dq : string := String (ascii_of_nat 34) "".

(** [str.lower] on one character. *)
Definition lower_char (c : ascii) : ascii :=
  let n := nat_of_ascii c in
  if (65 <=? n)%nat && (n <=? 90)%nat then ascii_of_nat (n + 32) else c.

(** [s.lower()] *)
Fixpoint lower (s : string) : string :=
  match s with
  | EmptyString => EmptyString
  | String c s' => String (lower_char c) (lower s')
  end.

(** [c.isspace()] for the characters below 128. *)
Definition is_space (c : ascii) : bool :=
  let n := nat_of_ascii c in
  ((9 <=? n)%nat && (n <=? 13)%nat) || ((28 <=? n)%nat && (n <=? 32)%nat).

Definition is_empty (s : string) : bool :=
  match s with EmptyString => true | String _ _ => false end.

Fixpoint lstrip (s : string) : string :=
  match s with
  | EmptyString => EmptyString
  | String c s' => if is_space c then lstrip s' else s
  end.

Fixpoint rstrip (s : string) : string :=
  match s with
  | EmptyString => EmptyString
  | String c s' =>
      let r := rstrip s' in
      if is_space c && is_empty r then EmptyString else String c r
  end.

(** [s.strip()] *)
Definition strip (s : string) : string := rstrip (lstrip s).

(** [s.split()]: the maximal runs of non-space characters. *)
Fixpoint split_from (cur : string) (s : string) : list string :=
  match s with
  | EmptyString => if is_empty cur then [] else [cur]
  | String c s' =>
      if is_space c
      then (if is_empty cur then split_from "" s' else cur :: split_from "" s')
      else split_from (cur ++ String c "") s'
  end.

Definition split (s : string) : list string := split_from "" s.

(** [p in s] for strings: [p] occurs in [s] as a contiguous block. *)
Fixpoint str_in (p s : string) : bool :=
  prefix p s ||
  match s with
  | EmptyString => false
  | String _ s' => str_in p s'
  end.

(** [any(phrase in s for phrase in phrases)] *)
Definition any_in (phrases : list string) (s : string) : bool :=
  existsb (fun phrase => str_in phrase s) phrases.

(** [sep.join(l)] *)
Definition join (sep : string) (l : list string) : string := concat sep l.

(** [str(n)] for a non-negative integer. *)
Definition str_of_nat (n : nat) : string := NilZero.string_of_uint (Nat.to_uint n).

(** [sorted(l)] with a comparison [le]; insertion keeps equal elements in
    their original order, as Python's stable sort does. *)
Section Sorting.

Context {A : Type} (le : A -> A -> bool).

Fixpoint insert (x : A) (l : list A) : list A :=
  match l with
  | [] => [x]
  | y :: l' => if le x y then x :: l else y :: insert x l'
  end.

Fixpoint sorted_by (l : list A) : list A :=
  match l with
  | [] => []
  | x :: l' => insert x (sorted_by l')
  end.

End Sorting.

(** [sorted(l)] on strings: code-point order. *)
Definition sorted (l : list string) : list string := sorted_by String.leb l.

(** *** Number formatting *)

(** Round to the nearest integer, ties to the even one. *)
Definition round_half_even (x : Q) : Z :=
  let f := Qfloor x in
  match Qcompare (x - inject_Z f) (1 # 2) with
  | Lt => f
  | Gt => (f + 1)%Z
  | Eq => if Z.even f then f else (f + 1)%Z
  end.

(** The [,] option: a comma between each group of three digits. *)
Fixpoint group3_rev (ds : list ascii) : list ascii :=
  match ds with
  | a :: b :: c :: ((_ :: _) as rest) => a :: b :: c :: ","%char :: group3_rev rest
  | _ => ds
  end.

Definition group_thousands (digits : string) : string :=
  string_of_list_ascii
    (rev (group3_rev (rev (list_ascii_of_string digits)))).

Fixpoint zero_pad (width : nat) (s : string) : string :=
  match width with
  | O => s
  | S w => if (String.length s <? width)%nat then zero_pad w ("0" ++ s) else s
  end.

(** [format(v, ",.{d}f")] *)
Definition format_fixed (d : nat) (v : Q) : string :=
  let scale := (10 ^ Z.of_nat d)%Z in
  let r := Z.abs (round_half_even (v * inject_Z scale)) in
  let sign := match Qcompare v 0 with Lt => "-" | _ => "" end in
  let int_part := group_thousands (str_of_nat (Z.to_nat (r / scale))) in
  let frac_part :=
    match d with
    | O => ""
    | _ => "." ++ zero_pad d (str_of_nat (Z.to_nat (r mod scale)))
    end in
  sign ++ int_part ++ frac_part.

(** [f"${v:,.2f}"] *)
Definition dollars (v : Q) : string := "$" ++ format_fixed 2 v.

End PyStr.

Import PyStr.

(* ================================================================= *)
(** ** The tables *)

(** A row of holdings.csv: the columns [DataChatbot] reads. *)
Record HoldingRecord : Type := {
  ShortName : option string;
  PortfolioName : option string;
  SecName : option string;
  SecurityTypeName : option string;
  CustodianName : option string;
  Qty : option Q;
  MV_Base : option Q;
  PL_QTD : option Q;
  PL_MTD : option Q;
  PL_YTD : option Q
}.

(** A row of trades.csv: the columns [DataChatbot] reads. *)
Record TradeRecord : Type := {
  TradePortfolioName : option string;
  TradeCustodianName : option string;
  Counterparty : option string;
  TradeTypeName : option string
}.

(** The object: both attributes are [None] after [__init__] and stay so for
    a table [load_data] could not read. *)
Record DataChatbot : Type := {
  holdings_df : option (list HoldingRecord);
  trades_df : option (list TradeRecord)
}.

(** ** Exceptions and the method monad *)

Inductive exn : Type :=
| TypeError        (* subscripting or [len] of [None]; [str.join] on NaN;
                      a format code applied to the wrong type *)
| AttributeError   (* an attribute of [None] or of a float *)
| ReError.         (* [re.error]: the pattern does not compile *)

Inductive result (A : Type) : Type :=
| Ok (a : A)
| Raise (e : exn).
Arguments Ok {A} a.
Arguments Raise {A} e.

(** A method body: reads [self], returns or raises, hands [self] on. *)
Definition M (A : Type) : Type := DataChatbot -> result A * DataChatbot.

Definition ret {A} (a : A) : M A := fun self => (Ok a, self).
Definition raise {A} (e : exn) : M A := fun self => (Raise e, self).
Definition bind {A B} (m : M A) (k : A -> M B) : M B :=
  fun self =>
    match m self with
    | (Ok a, self') => k a self'
    | (Raise e, self') => (Raise e, self')
    end.

Notation "x <- m ;; k" := (bind m (fun x => k))
  (at level 61, m at next level, right associativity).

(** [m] hands on the object it was given. *)
Definition readonly {A} (m : M A) : Prop := forall self, snd (m self) = self.

(** [m] returns, and raises nothing, on [self]. *)
Definition returns {A} (m : M A) (self : DataChatbot) : Prop :=
  exists a, m self = (Ok a, self).

(** [self.holdings_df] used in an operation that raises [e] on [None]. *)
Definition holdings (e : exn) : M (list HoldingRecord) :=
  fun self =>
    match holdings_df self with
    | Some df => (Ok df, self)
    | None => (Raise e, self)
    end.

Definition trades (e : exn) : M (list TradeRecord) :=
  fun self =>
    match trades_df self with
    | Some df => (Ok df, self)
    | None => (Raise e, self)
    end.

(** [self.holdings_df[col]] *)
Definition holdings_col {A} (col : HoldingRecord -> A) : M (list A) :=
  df <- holdings TypeError ;; ret (map col df).

(** [self.trades_df[col]] *)
Definition trades_col {A} (col : TradeRecord -> A) : M (list A) :=
  df <- trades TypeError ;; ret (map col df).

(** ** What the runtime fixes *)

Record PyRuntime : Type := {
  (** the order in which a set built from the given elements is iterated *)
  set_iter : list string -> list string;
  (** [re.compile(pat)]: [None] when the pattern is rejected, otherwise
      [fun s => regex.search(s) is not None] *)
  re_compile : string -> option (string -> bool);
  (** numpy's sort of rows by a numeric key, ascending or descending *)
  np_sort : forall A : Type, (A -> Q) -> bool -> list A -> list A;
  (** [col.sum()]: the sum numpy computes of the cells of a numeric column,
      NaN skipped *)
  col_sum : list (option Q) -> Q;
  (** the sum [groupby(...)[col].sum()] computes for one group, from the
      cells of the group's rows in the order of the table, NaN skipped *)
  group_sum : list (option Q) -> Q
}.

(** The characters the regular-expression syntax gives a meaning to. *)
Definition re_special (c : ascii) : bool :=
  existsb (Ascii.eqb c)
    (list_ascii_of_string (".^$*+?{}[]|()" ++ String (ascii_of_nat 92) "")).

Fixpoint re_plain (p : string) : bool :=
  match p with
  | EmptyString => true
  | String c p' => negb (re_special c) && re_plain p'
  end.

(** What the development assumes of a runtime. *)
Record PyRuntimeLaws (rt : PyRuntime) : Prop := {
  set_iter_NoDup : forall l, NoDup (set_iter rt l);
  set_iter_In : forall l x, In x (set_iter rt l) <-> In x l;
  re_compile_plain : forall p, re_plain p = true ->
    exists f, re_compile rt p = Some f /\ forall s, f s = str_in p s;
  np_sort_perm : forall A (key : A -> Q) asc l,
    Permutation (np_sort rt A key asc l) l;
  col_sum_empty : col_sum rt [] = 0
}.

(** [Series.unique()]: the distinct values in order of first appearance. *)
Fixpoint unique {A} (eqb : A -> A -> bool) (l : list A) : list A :=
  match l with
  | [] => []
  | x :: l' => x :: filter (fun y => negb (eqb x y)) (unique eqb l')
  end.

(** [col.dropna()] *)
Fixpoint dropna {A} (col : list (option A)) : list A :=
  match col with
  | [] => []
  | Some x :: col' => x :: dropna col'
  | None :: col' => dropna col'
  end.

(** *** A reference runtime *)

(** The binary64 number nearest to [x], ties to even: 53 significant bits,
    exponents from -1074 on.  There is no largest number: the reference
    runtime has no infinity. *)
Definition binary64 (x : Q) : Q :=
  match Qnum x with
  | Z0 => 0
  | _ =>
      let e0 := (Z.log2 (Z.abs (Qnum x)) - Z.log2 (Zpos (Qden x)))%Z in
      let log2_x := if Qle_bool (Qpower 2 e0) (Qabs x) then e0 else (e0 - 1)%Z in
      let e := Z.max (log2_x - 52) (-1074) in
      Qred (inject_Z (round_half_even (x / Qpower 2 e)) * Qpower 2 e)
  end.

(** The cells added from the first to the last as float64 numbers, NaN
    skipped. *)
Definition float_sum (col : list (option Q)) : Q :=
  fold_left (fun acc v => binary64 (acc + v)) (dropna col) 0.

(** A pattern without special characters but the dot. *)
Fixpoint re_dotted (p : string) : bool :=
  match p with
  | EmptyString => true
  | String c p' => (Ascii.eqb c "." || negb (re_special c)) && re_dotted p'
  end.

(** [regex.match(s)] for such a pattern: a dot stands for any character
    but the newline. *)
Fixpoint re_match (p s : string) : bool :=
  match p, s with
  | EmptyString, _ => true
  | String _ _, EmptyString => false
  | String c p', String d s' =>
      (if Ascii.eqb c "." then negb (Ascii.eqb d (ascii_of_nat 10)) else Ascii.eqb c d)
      && re_match p' s'
  end.

(** [regex.search(s) is not None] *)
Fixpoint re_search (p s : string) : bool :=
  re_match p s
  || match s with
     | EmptyString => false
     | String _ s' => re_search p s'
     end.

(** Sets iterate in insertion order; a pattern whose only special character
    is the dot is searched for as the regular expression it is, any other
    pattern with a special character is taken as rejected (the engine of
    CPython rejects some of them, such as an opening parenthesis that is not
    closed, and compiles the others); sorting is stable; sums add the cells
    in the order of the rows. *)
Definition ref_runtime : PyRuntime := {|
  set_iter := unique String.eqb;
  re_compile := fun p =>
    if re_plain p then Some (str_in p)
    else if re_dotted p then Some (re_search p)
    else None;
  np_sort := fun A key asc =>
    sorted_by (fun x y => if asc then Qle_bool (key x) (key y)
                          else Qle_bool (key y) (key x));
  col_sum := float_sum;
  group_sum := float_sum
|}.

(* ================================================================= *)
(** ** pandas on columns *)

Definition cell_eqb (a b : option string) : bool :=
  match a, b with
  | Some x, Some y => String.eqb x y
  | None, None => true
  | _, _ => false
  end.

(** [col.dropna().unique()] *)
Definition dropna_unique (col : list (option string)) : list string :=
  unique String.eqb (dropna col).

(** The dtype pandas infers for a text column lets it be used as text when
    it has a string in it or no row at all; a column that is NaN in every
    row is a float column. *)
Definition is_text (col : list (option string)) : bool :=
  match col with
  | [] => true
  | _ :: _ => existsb (fun c => match c with Some _ => true | None => false end) col
  end.

(** [col.str]: an [AttributeError] on a column that is not text. *)
Definition str_accessor (col : list (option string)) : M (list (option string)) :=
  if is_text col then ret col else raise AttributeError.

(** [.lower()] of [col.str.lower()] *)
Definition str_lower (col : list (option string)) : list (option string) :=
  map (option_map lower) col.

(** [mask1 | mask2] *)
Definition mask_or (m1 m2 : list bool) : list bool :=
  map (fun ab => fst ab || snd ab) (combine m1 m2).

(** [mask.sum()] *)
Definition mask_sum (mask : list bool) : nat :=
  List.length (filter (fun b => b) mask).

(** [df[mask]] *)
Definition select {A} (df : list A) (mask : list bool) : list A :=
  map fst (filter snd (combine df mask)).

(** [col.str.lower() == value] *)
Definition str_lower_eq (col : list (option string)) (value : string) : list bool :=
  map (fun c => match c with
                | Some s => String.eqb (lower s) value
                | None => false
                end) col.

(** [df.groupby(key)[val].sum()]: one entry per non-missing key, keys
    sorted, each with the sum of the group of rows that have the key. *)
Definition groupby_sum {R} (rt : PyRuntime) (key : R -> option string)
    (val : R -> option Q) (df : list R) : list (string * Q) :=
  map (fun k => (k, group_sum rt
                      (map val (filter (fun r => cell_eqb (key r) (Some k)) df))))
      (sorted (dropna_unique (map key df))).

(** [enumerate(items, start)] *)
Fixpoint enumerate {A} (start : nat) (items : list A) : list (nat * A) :=
  match items with
  | [] => []
  | x :: items' => (start, x) :: enumerate (S start) items'
  end.

(** [f"{cell}"]: NaN prints as [nan]. *)
Definition str_of_cell (c : option string) : string :=
  match c with Some s => s | None => "nan" end.

(** [if fund_name: yes else: no] for a string that may be [None]: [None] and
    the empty string are false. *)
Definition if_fund {A} (fund_name : option string) (yes : string -> A) (no : A) : A :=
  match fund_name with
  | Some name => if is_empty name then no else yes name
  | None => no
  end.

(** What [get_fund_pnl_ytd], [get_pnl_mtd] and [get_pnl_qtd] return: a sum or
    [None] when called with a fund, a dict when called without. *)
Inductive pnl_result : Type :=
| PnlValue (v : option Q)
| PnlByFund (d : list (string * Q)).

Definition sentinel : string := "Sorry can not find the answer".
Definition fund_sentinel (fund_name : string) : string :=
  "Sorry can not find the answer for fund '" ++ fund_name ++ "'".

(* ================================================================= *)
(** ** The triggers of [process_question]

    Each is the condition of one [if] of lines 219-426, over the lowercased
    and stripped question. *)

Definition asks_list_funds (question_lower : string) : bool :=
  any_in ["list all funds"; "all funds"; "what funds"; "which funds are there";
          "show funds"; "available funds"] question_lower.

Definition asks_total_holdings (question_lower : string) : bool :=
  (str_in "total" question_lower && str_in "holdings" question_lower)
  || (str_in "how many" question_lower && str_in "holdings" question_lower).

Definition asks_total_trades (question_lower : string) : bool :=
  (str_in "total" question_lower && str_in "trades" question_lower)
  || (str_in "how many" question_lower && str_in "trades" question_lower).

Definition asks_best (question_lower : string) : bool :=
  any_in ["best performing"; "top performing"; "highest profit"; "best fund";
          "top fund"; "performed better"; "which fund performed"] question_lower.

Definition asks_worst (question_lower : string) : bool :=
  any_in ["worst performing"; "lowest profit"; "worst fund"; "poor performing";
          "lowest performing"] question_lower.

Definition asks_ranking (question_lower : string) : bool :=
  any_in ["fund performance"; "performance ranking"; "rank funds"; "compare funds"]
         question_lower.

Definition ytd_phrases : list string :=
  ["ytd"; "yearly"; "year to date"; "annual"; "profit and loss"; "pnl"; "p&l";
   "profit"; "loss"].

Definition asks_ytd (question_lower : string) : bool :=
  any_in ytd_phrases question_lower.

Definition asks_mtd (question_lower : string) : bool :=
  str_in "mtd" question_lower || str_in "month to date" question_lower.

Definition asks_qtd (question_lower : string) : bool :=
  str_in "qtd" question_lower || str_in "quarter to date" question_lower.

Definition asks_securities (question_lower : string) : bool :=
  any_in ["securities"; "what securities"; "which securities"; "holdings for"]
         question_lower.

Definition asks_security_types (question_lower : string) : bool :=
  any_in ["security types"; "asset types"; "type of securities"; "types of assets"]
         question_lower.

Definition asks_trade_types (question_lower : string) : bool :=
  any_in ["trade types"; "buy and sell"; "buys and sells"; "trade summary"]
         question_lower.

Definition asks_buys (question_lower : string) : bool :=
  str_in "buy" question_lower
  && (str_in "how many" question_lower || str_in "number of" question_lower
      || str_in "total" question_lower).

Definition asks_sells (question_lower : string) : bool :=
  str_in "sell" question_lower
  && (str_in "how many" question_lower || str_in "number of" question_lower
      || str_in "total" question_lower).

Definition asks_market_value (question_lower : string) : bool :=
  any_in ["market value"; "total value"; "mv"; "aum"] question_lower.

Definition asks_custodians (question_lower : string) : bool :=
  str_in "custodian" question_lower.

Definition asks_counterparties (question_lower : string) : bool :=
  str_in "counterpart" question_lower.

Definition asks_security_type_count (question_lower : string) : bool :=
  any_in (map lower ["equity"; "bond"; "option"; "assetbacked"; "fx forward"])
         question_lower.

Definition asks_quantity (question_lower : string) : bool :=
  str_in "quantity" question_lower || str_in "qty" question_lower.

Definition asks_help (question_lower : string) : bool :=
  any_in ["help"; "what can you"; "commands"; "examples"] question_lower.

(** The rule that answers: the first whose trigger holds, in the order of
    the source. *)
Inductive intent : Type :=
| Empty | ListFunds | TotalHoldings | TotalTrades | Best | Worst | Ranking
| Ytd | Mtd | Qtd | Securities | SecurityTypes | TradeTypes | Buys | Sells
| MarketValue | Custodians | Counterparties | SecurityTypeCount | Quantity
| Help | Fallback.

Definition classify (question_lower : string) : intent :=
  if is_empty question_lower then Empty
  else if asks_list_funds question_lower then ListFunds
  else if asks_total_holdings question_lower then TotalHoldings
  else if asks_total_trades question_lower then TotalTrades
  else if asks_best question_lower then Best
  else if asks_worst question_lower then Worst
  else if asks_ranking question_lower then Ranking
  else if asks_ytd question_lower then Ytd
  else if asks_mtd question_lower then Mtd
  else if asks_qtd question_lower then Qtd
  else if asks_securities question_lower then Securities
  else if asks_security_types question_lower then SecurityTypes
  else if asks_trade_types question_lower then TradeTypes
  else if asks_buys question_lower then Buys
  else if asks_sells question_lower then Sells
  else if asks_market_value question_lower then MarketValue
  else if asks_custodians question_lower then Custodians
  else if asks_counterparties question_lower then Counterparties
  else if asks_security_type_count question_lower then SecurityTypeCount
  else if asks_quantity question_lower then Quantity
  else if asks_help question_lower then Help
  else Fallback.

(** The intents whose answer is computed for one fund when the question
    names one (the column "fund-scoped" of the rule table). *)
Definition fund_scoped (i : intent) : bool :=
  match i with
  | TotalHoldings | TotalTrades | Ytd | Mtd | Qtd | Securities | SecurityTypes
  | MarketValue | Quantity => true
  | _ => false
  end.

(* ================================================================= *)
(** ** The methods of [DataChatbot] *)

Section Chatbot.

Variable rt : PyRuntime.

(** [col.str.contains(pat, na=False)] on a text column: [pat] is compiled as
    a regular expression and searched for in every cell; NaN gives [False]. *)
Definition str_contains (col : list (option string)) (pat : string) : M (list bool) :=
  match re_compile rt pat with
  | None => raise ReError
  | Some search =>
      ret (map (fun c => match c with Some s => search s | None => false end) col)
  end.

(** [', '.join(cells)]: a NaN among the cells is a [TypeError]. *)
Fixpoint join_cells (sep : string) (cells : list (option string)) : M string :=
  match cells with
  | [] => ret ""
  | None :: _ => raise TypeError
  | Some s :: [] => ret s
  | Some s :: cells' => rest <- join_cells sep cells' ;; ret (s ++ sep ++ rest)
  end.

Definition get_all_funds : M (list string) :=
  short <- holdings_col ShortName ;;
  let holdings_funds := dropna_unique short in
  port <- holdings_col PortfolioName ;;
  let holdings_portfolios := dropna_unique port in
  tport <- trades_col TradePortfolioName ;;
  let trades_portfolios := dropna_unique tport in
  ret (set_iter rt (holdings_funds ++ holdings_portfolios ++ trades_portfolios)%list).

(** The mask of lines 58-59, repeated at 80-81, 107-108, 116-117, 134-135,
    163-164, 174-175 and 184-185. *)
Definition holdings_fund_mask (fund_name : string) : M (list bool) :=
  short <- holdings_col ShortName ;;
  short <- str_accessor short ;;
  m1 <- str_contains (str_lower short) (lower fund_name) ;;
  port <- holdings_col PortfolioName ;;
  port <- str_accessor port ;;
  m2 <- str_contains (str_lower port) (lower fund_name) ;;
  ret (mask_or m1 m2).

(** [filtered = self.holdings_df[mask]] *)
Definition holdings_for_fund (fund_name : string) : M (list HoldingRecord) :=
  mask <- holdings_fund_mask fund_name ;;
  df <- holdings TypeError ;;
  ret (select df mask).

Definition get_total_holdings_for_fund (fund_name : string) : M (option nat) :=
  mask <- holdings_fund_mask fund_name ;;
  let count := mask_sum mask in
  ret (if (0 <? count)%nat then Some count else None).

(** The mask of line 65. *)
Definition trades_fund_mask (fund_name : string) : M (list bool) :=
  port <- trades_col TradePortfolioName ;;
  port <- str_accessor port ;;
  str_contains (str_lower port) (lower fund_name).

Definition get_total_trades_for_fund (fund_name : string) : M (option nat) :=
  mask <- trades_fund_mask fund_name ;;
  let count := mask_sum mask in
  ret (if (0 <? count)%nat then Some count else None).

Definition get_total_holdings : M nat :=
  df <- holdings TypeError ;; ret (List.length df).

Definition get_total_trades : M nat :=
  df <- trades TypeError ;; ret (List.length df).

(** The body shared by [get_fund_pnl_ytd], [get_pnl_mtd] and [get_pnl_qtd],
    which differ in the column they sum. *)
Definition get_pnl (column : HoldingRecord -> option Q) (fund_name : option string)
    : M pnl_result :=
  if_fund fund_name
    (fun name =>
       filtered <- holdings_for_fund name ;;
       if (0 <? List.length filtered)%nat
       then ret (PnlValue (Some (col_sum rt (map column filtered))))
       else ret (PnlValue None))
    (df <- holdings AttributeError ;;
     ret (PnlByFund (groupby_sum rt ShortName column df))).

Definition get_fund_pnl_ytd := get_pnl PL_YTD.
Definition get_pnl_mtd := get_pnl PL_MTD.
Definition get_pnl_qtd := get_pnl PL_QTD.

Definition get_fund_performance_ranking : M (list (string * Q)) :=
  df <- holdings AttributeError ;;
  ret (np_sort rt _ snd false (groupby_sum rt ShortName PL_YTD df)).

Definition get_best_performing_funds (n : nat) : M (list (string * Q)) :=
  df <- holdings AttributeError ;;
  ret (firstn n (np_sort rt _ snd false (groupby_sum rt ShortName PL_YTD df))).

Definition get_worst_performing_funds (n : nat) : M (list (string * Q)) :=
  df <- holdings AttributeError ;;
  ret (firstn n (np_sort rt _ snd true (groupby_sum rt ShortName PL_YTD df))).

Definition get_securities_for_fund (fund_name : string)
    : M (option (list (option string))) :=
  filtered <- holdings_for_fund fund_name ;;
  if (0 <? List.length filtered)%nat
  then ret (Some (unique cell_eqb (map SecName filtered)))
  else ret None.

Definition get_security_types_for_fund (fund_name : string)
    : M (option (list (option string))) :=
  filtered <- holdings_for_fund fund_name ;;
  if (0 <? List.length filtered)%nat
  then ret (Some (unique cell_eqb (map SecurityTypeName filtered)))
  else ret None.

(** [value_counts().to_dict()]: NaN dropped, most frequent first. *)
Definition get_trade_types_summary : M (list (string * nat)) :=
  col <- trades_col TradeTypeName ;;
  let counts :=
    map (fun k => (k, mask_sum (map (fun c => cell_eqb c (Some k)) col)))
        (dropna_unique col) in
  ret (np_sort rt _ (fun kc => inject_Z (Z.of_nat (snd kc))) false counts).

Definition get_trades_by_type (trade_type : string) : M nat :=
  col <- trades_col TradeTypeName ;;
  col <- str_accessor col ;;
  ret (mask_sum (str_lower_eq col (lower trade_type))).

Definition get_fund_market_value (fund_name : string) : M (option Q) :=
  filtered <- holdings_for_fund fund_name ;;
  if (0 <? List.length filtered)%nat
  then ret (Some (col_sum rt (map MV_Base filtered)))
  else ret None.

Definition get_custodians : M (list string) :=
  hc <- holdings_col CustodianName ;;
  let holdings_custodians := dropna_unique hc in
  tc <- trades_col TradeCustodianName ;;
  let trades_custodians := dropna_unique tc in
  ret (set_iter rt (holdings_custodians ++ trades_custodians)%list).

Definition get_counterparties : M (list string) :=
  col <- trades_col Counterparty ;; ret (dropna_unique col).

Definition get_security_types : M (list string) :=
  col <- holdings_col SecurityTypeName ;; ret (dropna_unique col).

Definition get_holdings_by_security_type (sec_type : string) : M nat :=
  col <- holdings_col SecurityTypeName ;;
  col <- str_accessor col ;;
  mask <- str_contains (str_lower col) (lower sec_type) ;;
  ret (mask_sum mask).

Definition get_total_quantity_for_fund (fund_name : string) : M (option Q) :=
  filtered <- holdings_for_fund fund_name ;;
  if (0 <? List.length filtered)%nat
  then ret (Some (col_sum rt (map Qty filtered)))
  else ret None.

(** Lines 191-208. *)
Definition extract_fund_name (question : string) : M (option string) :=
  all_funds <- get_all_funds ;;
  let question_lower := lower question in
  match find (fun fund => str_in (lower fund) question_lower) all_funds with
  | Some fund => ret (Some fund)
  | None =>
      ret (find (fun fund =>
                   existsb (fun word => (3 <? String.length word)%nat
                                        && str_in word question_lower)
                           (split (lower fund)))
                all_funds)
  end.

(** *** The answers of [process_question], rule by rule *)

(** [result += f"  {i}. {fund}: ${pnl:,.2f}\n"] over [enumerate(items, 1)] *)
Definition ranking_lines (items : list (string * Q)) : string :=
  String.concat ""
    (map (fun e => "  " ++ str_of_nat (fst e) ++ ". " ++ fst (snd e) ++ ": "
                   ++ dollars (snd (snd e)) ++ nl)
         (enumerate 1 items)).

(** [result += f"  - {fund}: ${pnl:,.2f}\n"] *)
Definition pnl_lines (items : list (string * Q)) : string :=
  String.concat ""
    (map (fun e => "  - " ++ fst e ++ ": " ++ dollars (snd e) ++ nl) items).

(** [sorted(all_pnl.items(), key=lambda x: x[1], reverse=True)] *)
Definition sorted_pnl (all_pnl : list (string * Q)) : list (string * Q) :=
  sorted_by (fun x y => Qle_bool (snd y) (snd x)) all_pnl.

(** ["\n".join(f"  - {x}" for x in items)] *)
Definition dash_lines (items : list string) : string :=
  join nl (map (fun x => "  - " ++ x) items).

(** Lines 219-223. *)
Definition answer_list_funds : M string :=
  funds <- get_all_funds ;;
  match funds with
  | _ :: _ => ret ("Available funds/portfolios:" ++ nl ++ dash_lines (sorted funds))
  | [] => ret sentinel
  end.

(** Lines 226-234. *)
Definition answer_total_holdings (question : string) : M string :=
  fund_name <- extract_fund_name question ;;
  if_fund fund_name
    (fun name =>
       count <- get_total_holdings_for_fund name ;;
       match count with
       | Some (S c) =>
           ret ("Total number of holdings for " ++ name ++ ": " ++ str_of_nat (S c))
       | _ => ret (fund_sentinel name)
       end)
    (n <- get_total_holdings ;;
     ret ("Total number of holdings across all funds: " ++ str_of_nat n)).

(** Lines 237-245. *)
Definition answer_total_trades (question : string) : M string :=
  fund_name <- extract_fund_name question ;;
  if_fund fund_name
    (fun name =>
       count <- get_total_trades_for_fund name ;;
       match count with
       | Some (S c) =>
           ret ("Total number of trades for " ++ name ++ ": " ++ str_of_nat (S c))
       | _ => ret (fund_sentinel name)
       end)
    (n <- get_total_trades ;;
     ret ("Total number of trades across all funds: " ++ str_of_nat n)).

(** Lines 248-255, 258-265 and 268-275: a header and the numbered funds. *)
Definition answer_ranking (header : string) (get : M (list (string * Q))) : M string :=
  funds <- get ;;
  match funds with
  | _ :: _ => ret (header ++ nl ++ ranking_lines funds)
  | [] => ret sentinel
  end.

(** Lines 278-294, 297-312 and 315-330, which differ in the label and in the
    method they call.  A method answering with the other kind of value than
    the caller formats fails as Python does. *)
Definition answer_pnl (label : string) (get : option string -> M pnl_result)
    (question : string) : M string :=
  fund_name <- extract_fund_name question ;;
  if_fund fund_name
    (fun name =>
       pnl <- get (Some name) ;;
       match pnl with
       | PnlValue (Some v) =>
           ret (label ++ " P&L for " ++ name ++ ": " ++ dollars v)
       | PnlValue None => ret (fund_sentinel name)
       | PnlByFund _ => raise TypeError
       end)
    (all_pnl <- get None ;;
     match all_pnl with
     | PnlByFund ((_ :: _) as d) =>
         ret (label ++ " P&L for all funds:" ++ nl ++ pnl_lines (sorted_pnl d))
     | PnlByFund [] => ret sentinel
     | PnlValue None => ret sentinel
     | PnlValue (Some v) =>
         match Qcompare v 0 with
         | Eq => ret sentinel
         | _ => raise AttributeError
         end
     end).

(** Lines 333-340. *)
Definition answer_securities (question : string) : M string :=
  fund_name <- extract_fund_name question ;;
  if_fund fund_name
    (fun name =>
       securities <- get_securities_for_fund name ;;
       match securities with
       | Some ((_ :: _) as secs) =>
           ret ("Securities held by " ++ name ++ ":" ++ nl
                ++ dash_lines (map str_of_cell secs))
       | _ => ret (fund_sentinel name)
       end)
    (ret "Please specify a fund name.").

(** Lines 343-354. *)
Definition answer_security_types (question : string) : M string :=
  fund_name <- extract_fund_name question ;;
  if_fund fund_name
    (fun name =>
       types <- get_security_types_for_fund name ;;
       match types with
       | Some ((_ :: _) as ts) =>
           joined <- join_cells ", " ts ;;
           ret ("Security types for " ++ name ++ ": " ++ joined)
       | _ => ret (fund_sentinel name)
       end)
    (types <- get_security_types ;;
     match types with
     | _ :: _ => ret ("Available security types: " ++ join ", " types)
     | [] => ret sentinel
     end).

(** Lines 357-364. *)
Definition answer_trade_types : M string :=
  summary <- get_trade_types_summary ;;
  match summary with
  | _ :: _ =>
      ret ("Trade Types Summary:" ++ nl
           ++ String.concat ""
                (map (fun e => "  - " ++ fst e ++ ": " ++ str_of_nat (snd e) ++ nl)
                     summary))
  | [] => ret sentinel
  end.

(** Lines 367-371 and 374-378. *)
Definition answer_trades_by_type (trade_type label : string) : M string :=
  count <- get_trades_by_type trade_type ;;
  if (0 <? count)%nat
  then ret ("Total number of " ++ label ++ " trades: " ++ str_of_nat count)
  else ret sentinel.

(** Lines 381-390. *)
Definition answer_market_value (question : string) : M string :=
  fund_name <- extract_fund_name question ;;
  if_fund fund_name
    (fun name =>
       mv <- get_fund_market_value name ;;
       match mv with
       | Some v => ret ("Total market value for " ++ name ++ ": " ++ dollars v)
       | None => ret (fund_sentinel name)
       end)
    (col <- holdings_col MV_Base ;;
     ret ("Total market value across all funds: " ++ dollars (col_sum rt col))).

(** Lines 393-397. *)
Definition answer_custodians : M string :=
  custodians <- get_custodians ;;
  match custodians with
  | _ :: _ => ret ("Custodians:" ++ nl ++ dash_lines (sorted custodians))
  | [] => ret sentinel
  end.

(** Lines 400-404. *)
Definition answer_counterparties : M string :=
  counterparties <- get_counterparties ;;
  match counterparties with
  | _ :: _ => ret ("Counterparties:" ++ nl ++ dash_lines (sorted counterparties))
  | [] => ret sentinel
  end.

(** Lines 408-413: the first keyword of the question with a holding. *)
Fixpoint answer_security_type_count (sec_types : list string) (question_lower : string)
    : M string :=
  match sec_types with
  | [] => ret sentinel
  | sec_type :: rest =>
      if str_in (lower sec_type) question_lower then
        count <- get_holdings_by_security_type sec_type ;;
        if (0 <? count)%nat
        then ret ("Number of " ++ sec_type ++ " holdings: " ++ str_of_nat count)
        else answer_security_type_count rest question_lower
      else answer_security_type_count rest question_lower
  end.

(** Lines 416-423. *)
Definition answer_quantity (question : string) : M string :=
  fund_name <- extract_fund_name question ;;
  if_fund fund_name
    (fun name =>
       qty <- get_total_quantity_for_fund name ;;
       match qty with
       | Some v => ret ("Total quantity for " ++ name ++ ": " ++ format_fixed 0 v)
       | None => ret (fund_sentinel name)
       end)
    (ret "Please specify a fund name for quantity information.").

(** Lines 427-459. *)
Definition help_text : string :=
  String.concat nl [
    "I can help you with questions about holdings and trades data. Here are some examples:";
    "";
    "📊 Holdings Questions:";
    "  - " ++ dq ++ "Total number of holdings for Garfield" ++ dq;
    "  - " ++ dq ++ "How many holdings are there?" ++ dq;
    "  - " ++ dq ++ "What securities does Heather hold?" ++ dq;
    "  - " ++ dq ++ "What are the security types for MNC Inv?" ++ dq;
    "  - " ++ dq ++ "Number of equity holdings" ++ dq;
    "";
    "📈 Trades Questions:";
    "  - " ++ dq ++ "Total number of trades for HoldCo 1" ++ dq;
    "  - " ++ dq ++ "How many trades are there?" ++ dq;
    "  - " ++ dq ++ "Trade types summary" ++ dq;
    "  - " ++ dq ++ "How many buy trades?" ++ dq;
    "  - " ++ dq ++ "How many sell trades?" ++ dq;
    "";
    "💰 Performance Questions:";
    "  - " ++ dq ++ "Which funds performed better?" ++ dq;
    "  - " ++ dq ++ "Best performing funds" ++ dq;
    "  - " ++ dq ++ "Worst performing funds" ++ dq;
    "  - " ++ dq ++ "YTD P&L for Ytum" ++ dq;
    "  - " ++ dq ++ "MTD P&L for all funds" ++ dq;
    "  - " ++ dq ++ "Fund performance ranking" ++ dq;
    "";
    "💵 Value Questions:";
    "  - " ++ dq ++ "Market value for Garfield" ++ dq;
    "  - " ++ dq ++ "Total market value" ++ dq;
    "";
    "🏢 Other Questions:";
    "  - " ++ dq ++ "List all funds" ++ dq;
    "  - " ++ dq ++ "What are the custodians?" ++ dq;
    "  - " ++ dq ++ "What are the counterparties?" ++ dq;
    ""
  ].

(** Lines 210-461: the rules in the order they are tried; the first whose
    trigger holds answers. *)
Definition process_question (question : string) : M string :=
  let question_lower := strip (lower question) in
  if is_empty question_lower then
    ret "Please enter a question."
  else if asks_list_funds question_lower then
    answer_list_funds
  else if asks_total_holdings question_lower then
    answer_total_holdings question
  else if asks_total_trades question_lower then
    answer_total_trades question
  else if asks_best question_lower then
    answer_ranking "Best performing funds by YTD P&L:" (get_best_performing_funds 10)
  else if asks_worst question_lower then
    answer_ranking "Worst performing funds by YTD P&L:" (get_worst_performing_funds 10)
  else if asks_ranking question_lower then
    answer_ranking "Fund Performance Ranking by YTD P&L:" get_fund_performance_ranking
  else if asks_ytd question_lower then
    answer_pnl "YTD" get_fund_pnl_ytd question
  else if asks_mtd question_lower then
    answer_pnl "MTD" get_pnl_mtd question
  else if asks_qtd question_lower then
    answer_pnl "QTD" get_pnl_qtd question
  else if asks_securities question_lower then
    answer_securities question
  else if asks_security_types question_lower then
    answer_security_types question
  else if asks_trade_types question_lower then
    answer_trade_types
  else if asks_buys question_lower then
    answer_trades_by_type "buy" "Buy"
  else if asks_sells question_lower then
    answer_trades_by_type "sell" "Sell"
  else if asks_market_value question_lower then
    answer_market_value question
  else if asks_custodians question_lower then
    answer_custodians
  else if asks_counterparties question_lower then
    answer_counterparties
  else if asks_security_type_count question_lower then
    answer_security_type_count ["Equity"; "Bond"; "Option"; "AssetBacked"; "FX Forward"]
                               question_lower
  else if asks_quantity question_lower then
    answer_quantity question
  else if asks_help question_lower then
    ret help_text
  else
    ret sentinel.

(** *** The rules as a classifier and a dispatch *)

(** The answer each intent stands for. *)
Definition answer (i : intent) (question : string) : M string :=
  match i with
  | Empty => ret "Please enter a question."
  | ListFunds => answer_list_funds
  | TotalHoldings => answer_total_holdings question
  | TotalTrades => answer_total_trades question
  | Best =>
      answer_ranking "Best performing funds by YTD P&L:" (get_best_performing_funds 10)
  | Worst =>
      answer_ranking "Worst performing funds by YTD P&L:" (get_worst_performing_funds 10)
  | Ranking =>
      answer_ranking "Fund Performance Ranking by YTD P&L:" get_fund_performance_ranking
  | Ytd => answer_pnl "YTD" get_fund_pnl_ytd question
  | Mtd => answer_pnl "MTD" get_pnl_mtd question
  | Qtd => answer_pnl "QTD" get_pnl_qtd question
  | Securities => answer_securities question
  | SecurityTypes => answer_security_types question
  | TradeTypes => answer_trade_types
  | Buys => answer_trades_by_type "buy" "Buy"
  | Sells => answer_trades_by_type "sell" "Sell"
  | MarketValue => answer_market_value question
  | Custodians => answer_custodians
  | Counterparties => answer_counterparties
  | SecurityTypeCount =>
      answer_security_type_count ["Equity"; "Bond"; "Option"; "AssetBacked"; "FX Forward"]
                                 (strip (lower question))
  | Quantity => answer_quantity question
  | Help => ret help_text
  | Fallback => ret sentinel
  end.

(** The mask the intent's fund filter builds, for the intents that filter by
    fund: over the trades for the trades count, over the holdings otherwise. *)
Definition fund_filter (i : intent) (fund_name : string) : M (list bool) :=
  match i with
  | TotalTrades => trades_fund_mask fund_name
  | _ => holdings_fund_mask fund_name
  end.

End Chatbot.

(* ================================================================= *)
(** ** Rows that match a fund name

    The reading of the masks of [holdings_fund_mask] and [trades_fund_mask]
    as predicates on rows, for the statements below. *)

(** The lowercased cell contains the lowercased name; NaN contains nothing. *)
Definition cell_has (fund_name : string) (c : option string) : bool :=
  match c with
  | Some s => str_in (lower fund_name) (lower s)
  | None => false
  end.

Definition holding_matches (fund_name : string) (r : HoldingRecord) : bool :=
  cell_has fund_name (ShortName r) || cell_has fund_name (PortfolioName r).

Definition trade_matches (fund_name : string) (r : TradeRecord) : bool :=
  cell_has fund_name (TradePortfolioName r).

(** [count if count > 0 else None] *)
Definition positive (count : nat) : option nat :=
  if (0 <? count)%nat then Some count else None.

(** [f(filtered) if len(filtered) > 0 else None] *)
Definition over_rows {R B} (f : list R -> B) (filtered : list R) : option B :=
  if (0 <? List.length filtered)%nat then Some (f filtered) else None.

(** The fund identifiers the tables hold: a short name or a portfolio name of
    a holding, or the portfolio name of a trade. *)
Definition fund_identifier (hs : list HoldingRecord) (ts : list TradeRecord)
    (f : string) : Prop :=
  In (Some f) (map ShortName hs) \/ In (Some f) (map PortfolioName hs)
  \/ In (Some f) (map TradePortfolioName ts).

(* ================================================================= *)
(** ** A small data set

    Two tables in the shape of holdings.csv and trades.csv, used to run the
    methods on concrete input.  The numbers are float64 values; the last
    P&L is what the text 0.891 is read as. *)

Definition holding (short port : string) (sec : option string) (type : string)
    (qty mv ytd : Q) : HoldingRecord :=
  {| ShortName := Some short; PortfolioName := Some port; SecName := sec;
     SecurityTypeName := Some type; CustodianName := Some "JPM";
     Qty := Some qty; MV_Base := Some mv;
     PL_QTD := Some 10; PL_MTD := None; PL_YTD := Some ytd |}.

Definition trade (port type : string) : TradeRecord :=
  {| TradePortfolioName := Some port; TradeCustodianName := Some "CITI";
     Counterparty := Some "GS"; TradeTypeName := Some type |}.

Definition demo_holdings : list HoldingRecord :=
  [ holding "Alpha" "HoldCo 1" (Some "AAPL") "Equity" 100 (15005 # 10) 250;
    holding "Alpha Plus" "HoldCo 1" (Some "MSFT") "Equity" 40 2000 (-5);
    holding "Beta" "HoldCo 2" (Some "UST 10Y") "Bond" 7 700 1234567;
    holding "Beta" "HoldCo 2" None "Bond" 3 300 (binary64 (891 # 1000)) ].

Definition demo_trades : list TradeRecord :=
  [ trade "HoldCo 1" "Buy"; trade "HoldCo 1" "Buy"; trade "HoldCo 2" "BUY";
    trade "Gamma" "buy"; trade "HoldCo 2" "Sell"; trade "HoldCo 1" "Buy";
    trade "Gamma" "Sell" ].

Definition demo_bot : DataChatbot :=
  {| holdings_df := Some demo_holdings; trades_df := Some demo_trades |}.

(** Holdings of funds whose names hold characters of the
    regular-expression syntax. *)
Definition pattern_holdings : list HoldingRecord :=
  [ holding "A.B" "HoldCo 1" (Some "AAPL") "Equity" 100 1000 250;
    holding "AxB" "HoldCo 2" (Some "MSFT") "Equity" 40 2000 (-5);
    holding "Fund (A" "HoldCo 3" (Some "UST 10Y") "Bond" 7 700 10;
    holding "Big Fund (A" "HoldCo 4" (Some "UST 2Y") "Bond" 3 300 20 ].

Definition pattern_bot : DataChatbot :=
  {| holdings_df := Some pattern_holdings; trades_df := Some demo_trades |}.

(** Both files had a header and no rows. *)
Definition empty_bot : DataChatbot :=
  {| holdings_df := Some []; trades_df := Some [] |}.

(** [load_data] failed before it read anything. *)
Definition unloaded_bot : DataChatbot :=
  {| holdings_df := None; trades_df := None |}.

(** Every aggregate computed for the fund [name] is computed over the rows
    whose short name or portfolio name contains [name], letter case aside. *)
Definition aggregates_over_matching_rows (rt : PyRuntime) (self : DataChatbot)
    (hs : list HoldingRecord) (ts : list TradeRecord) (name : string) : Prop :=
  let rows := filter (holding_matches name) hs in
  let pnl column := PnlValue (over_rows (fun l => col_sum rt (map column l)) rows) in
  fst (get_total_holdings_for_fund rt name self) = Ok (positive (List.length rows)) /\
  fst (get_total_trades_for_fund rt name self)
  = Ok (positive (List.length (filter (trade_matches name) ts))) /\
  fst (get_fund_pnl_ytd rt (Some name) self) = Ok (pnl PL_YTD) /\
  fst (get_pnl_mtd rt (Some name) self) = Ok (pnl PL_MTD) /\
  fst (get_pnl_qtd rt (Some name) self) = Ok (pnl PL_QTD) /\
  fst (get_fund_market_value rt name self)
  = Ok (over_rows (fun l => col_sum rt (map MV_Base l)) rows) /\
  fst (get_securities_for_fund rt name self)
  = Ok (over_rows (fun l => unique cell_eqb (map SecName l)) rows) /\
  fst (get_security_types_for_fund rt name self)
  = Ok (over_rows (fun l => unique cell_eqb (map SecurityTypeName l)) rows) /\
  fst (get_total_quantity_for_fund rt name self)
  = Ok (over_rows (fun l => col_sum rt (map Qty l)) rows).

(** The columns searched for a fund name are text columns. *)
Definition name_columns_text (hs : list HoldingRecord) (ts : list TradeRecord) : Prop :=
  is_text (map ShortName hs) = true /\
  is_text (map PortfolioName hs) = true /\
  is_text (map TradePortfolioName ts) = true.

(** Tables in which pandas meets none of the inputs it fails on: no fund
    identifier holds a character of the regular-expression syntax, no
    holding lacks its security type name, and the columns used as text are
    text columns. *)
Definition well_formed_tables (hs : list HoldingRecord) (ts : list TradeRecord) : Prop :=
  (forall f, fund_identifier hs ts f -> re_plain f = true) /\
  (forall r, In r hs -> SecurityTypeName r <> None) /\
  name_columns_text hs ts /\
  is_text (map TradeTypeName ts) = true.

(** What each intent answers when both tables have no rows. *)
Definition empty_answer (i : intent) : string :=
  match i with
  | Empty => "Please enter a question."
  | TotalHoldings => "Total number of holdings across all funds: 0"
  | TotalTrades => "Total number of trades across all funds: 0"
  | Securities => "Please specify a fund name."
  | MarketValue => "Total market value across all funds: $0.00"
  | Quantity => "Please specify a fund name for quantity information."
  | Help => help_text
  | _ => sentinel
  end.

(* ================================================================= *)
(** ** The command-line loop

    [main], lines 473-491: the [while True] loop over what the user types.
    What [input] delivers is a line, or a [KeyboardInterrupt]; when the input
    is used up [input] raises [EOFError], which the loop reports like any
    other exception before it asks again. *)

Inductive input_event : Type :=
| Line (text : string)
| Interrupt.

(** What the loop prints: the text, or the report of an exception, whose
    wording is Python's. *)
Inductive output : Type :=
| Print (text : string)
| ErrorReport (e : exn).

(** How the loop stands when the events are used up. *)
Inductive loop_status : Type :=
| Exited
| AtEndOfInput.

(** [question.lower() in ['quit', 'exit', 'bye', 'q']] *)
Definition is_quit (question : string) : bool :=
  existsb (String.eqb (lower question)) ["quit"; "exit"; "bye"; "q"].

Definition goodbye : string := "Thank you for using the chatbot. Goodbye!".

Fixpoint main_loop (rt : PyRuntime) (events : list input_event) (chatbot : DataChatbot)
    : list output * loop_status :=
  match events with
  | [] => ([], AtEndOfInput)
  | Interrupt :: _ => ([Print (nl ++ nl ++ goodbye)], Exited)
  | Line text :: rest =>
      let question := strip text in
      if is_quit question then ([Print (nl ++ goodbye)], Exited)
      else if is_empty question then main_loop rt rest chatbot
      else
        match process_question rt question chatbot with
        | (Ok answer, chatbot') =>
            let (printed, status) := main_loop rt rest chatbot' in
            (Print (nl ++ "Bot: " ++ answer ++ nl) :: printed, status)
        | (Raise e, chatbot') =>
            let (printed, status) := main_loop rt rest chatbot' in
            (ErrorReport e :: printed, status)
        end
  end.

(** What the loop prints for one question (lines 484-485 and 490-491). *)
Definition reply (rt : PyRuntime) (chatbot : DataChatbot) (question : string) : output :=
  match fst (process_question rt question chatbot) with
  | Ok answer => Print (nl ++ "Bot: " ++ answer ++ nl)
  | Raise e => ErrorReport e
  end.

(** The questions the loop hands to [process_question]: the stripped lines
    up to the first quit word or interrupt, blank ones left out. *)
Fixpoint questions_asked (events : list input_event) : list string :=
  match events with
  | [] => []
  | Interrupt :: _ => []
  | Line text :: rest =>
      if is_quit (strip text) then []
      else if is_empty (strip text) then questions_asked rest
      else strip text :: questions_asked rest
  end.

(* ================================================================= *)
(** ** Readings of the methods, for the statements below *)

(** A string that does not begin with a space. *)
Definition head_kept (s : string) : bool :=
  match s with
  | EmptyString => true
  | String c _ => negb (is_space c)
  end.

(** The lowercased fund name occurs in the lowercased question (line 197). *)
Definition names_fund (question fund : string) : bool :=
  str_in (lower fund) (lower question).

(** A word of the lowercased fund name, longer than three characters, occurs
    in the lowercased question (lines 203-206). *)
Definition names_word_of (question fund : string) : bool :=
  existsb (fun word => (3 <? String.length word)%nat && str_in word (lower question))
          (split (lower fund)).

(** The holdings whose security type contains the keyword, letter case
    aside. *)
Definition holdings_of_type (sec_type : string) (hs : list HoldingRecord) : nat :=
  List.length (filter (fun r => cell_has sec_type (SecurityTypeName r)) hs).

(** The trades whose type is the given one, letter case aside. *)
Definition trades_of_type (trade_type : string) (ts : list TradeRecord) : nat :=
  List.length
    (filter (fun r => match TradeTypeName r with
                      | Some s => String.eqb (lower s) (lower trade_type)
                      | None => false
                      end) ts).

(** The trades whose type is exactly [k]. *)
Definition trades_typed (k : string) (ts : list TradeRecord) : nat :=
  List.length (filter (fun r => cell_eqb (TradeTypeName r) (Some k)) ts).

(** The cells of the column [val] in the rows of [df] whose key is [k]. *)
Definition group_cells {R} (key : R -> option string) (val : R -> option Q)
    (df : list R) (k : string) : list (option Q) :=
  map val (filter (fun r => cell_eqb (key r) (Some k)) df).

(** The order of the lines of a breakdown by fund: the larger amount first,
    and of two equal amounts the fund whose name sorts first. *)
Definition shown_before (a b : string * Q) : Prop :=
  snd b < snd a \/ (snd a == snd b /\ String.ltb (fst a) (fst b) = true).

(** How the answers of each rule begin: the fixed text before the first
    value put into the answer. *)
Definition answer_headers (i : intent) : list string :=
  match i with
  | Empty => ["Please enter a question."]
  | ListFunds => ["Available funds/portfolios:"; sentinel]
  | TotalHoldings =>
      ["Total number of holdings for "; "Total number of holdings across all funds: ";
       sentinel]
  | TotalTrades =>
      ["Total number of trades for "; "Total number of trades across all funds: ";
       sentinel]
  | Best => ["Best performing funds by YTD P&L:"; sentinel]
  | Worst => ["Worst performing funds by YTD P&L:"; sentinel]
  | Ranking => ["Fund Performance Ranking by YTD P&L:"; sentinel]
  | Ytd => ["YTD P&L for "; sentinel]
  | Mtd => ["MTD P&L for "; sentinel]
  | Qtd => ["QTD P&L for "; sentinel]
  | Securities => ["Securities held by "; "Please specify a fund name."; sentinel]
  | SecurityTypes => ["Security types for "; "Available security types: "; sentinel]
  | TradeTypes => ["Trade Types Summary:"; sentinel]
  | Buys => ["Total number of Buy trades: "; sentinel]
  | Sells => ["Total number of Sell trades: "; sentinel]
  | MarketValue =>
      ["Total market value for "; "Total market value across all funds: "; sentinel]
  | Custodians => ["Custodians:"; sentinel]
  | Counterparties => ["Counterparties:"; sentinel]
  | SecurityTypeCount => ["Number of "; sentinel]
  | Quantity =>
      ["Total quantity for "; "Please specify a fund name for quantity information.";
       sentinel]
  | Help => [help_text]
  | Fallback => [sentinel]
  end.

(** What [process_question] does when neither table was loaded. *)
Definition unloaded_answer (i : intent) : result string :=
  match i with
  | Empty => Ok "Please enter a question."
  | Help => Ok help_text
  | Fallback => Ok sentinel
  | Best | Worst | Ranking => Raise AttributeError
  | _ => Raise TypeError
  end.

(* ================================================================= *)
(** * Properties *)

(** ** Strings *)

Section StringFacts.

Lemma prefix_iff (p s : string) :
  prefix p s = true <-> exists t, s = p ++ t.
Proof.
  revert s; induction p as [|c p IH]; intros [|d s]; simpl.
  - split; [intros _; exists ""; reflexivity | reflexivity].
  - split; [intros _; exists (String d s); reflexivity | reflexivity].
  - split; [discriminate | intros [t H]; discriminate].
  - destruct (ascii_dec c d) as [->|Hcd].
    + rewrite IH. split; intros [t H]; exists t; [subst; reflexivity | now inversion H].
    + split; [discriminate | intros [t H]; inversion H; congruence].
Qed.

Lemma append_assoc (a b c : string) : (a ++ b) ++ c = a ++ (b ++ c).
Proof. induction a; simpl; congruence. Qed.

Lemma str_in_iff (p s : string) :
  str_in p s = true <-> exists a b, s = a ++ p ++ b.
Proof.
  induction s as [|c s IH].
  - cbn [str_in]. rewrite orb_false_r, prefix_iff. split.
    + intros [t H]; exists "", t; exact H.
    + intros [a [b H]]. destruct a; [exists b; exact H | discriminate].
  - cbn [str_in]. rewrite orb_true_iff, prefix_iff, IH. split.
    + intros [[t H] | [a [b H]]].
      * exists "", t; exact H.
      * exists (String c a), b; simpl; now rewrite H.
    + intros [a [b H]]. destruct a as [|d a].
      * left; exists b; exact H.
      * right; exists a, b. simpl in H; now inversion H.
Qed.

Lemma str_in_trans (a b c : string) :
  str_in a b = true -> str_in b c = true -> str_in a c = true.
Proof.
  rewrite !str_in_iff. intros [x [y ->]] [u [v ->]].
  exists (u ++ x), (y ++ v). now rewrite !append_assoc.
Qed.

Lemma lower_app (a b : string) : lower (a ++ b) = lower a ++ lower b.
Proof. induction a; simpl; congruence. Qed.

Lemma str_in_lower (a b : string) :
  str_in a b = true -> str_in (lower a) (lower b) = true.
Proof.
  rewrite !str_in_iff. intros [x [y ->]].
  exists (lower x), (lower y). now rewrite !lower_app.
Qed.

Lemma is_empty_false (s : string) : is_empty s = false <-> s <> "".
Proof. destruct s; simpl; split; congruence. Qed.

End StringFacts.

(** ** Lists: [unique], [dropna], [sorted_by] *)

Section ListFacts.

Context {A : Type} (eqb : A -> A -> bool).
Hypothesis eqb_spec : forall x y, eqb x y = true <-> x = y.

Lemma In_unique (l : list A) (x : A) : In x (unique eqb l) <-> In x l.
Proof.
  induction l as [|y l IH]; simpl; [tauto|].
  rewrite filter_In, IH. split.
  - intros [H | [H _]]; auto.
  - intros [H | H]; auto.
    destruct (eqb y x) eqn:E.
    + left; now apply eqb_spec.
    + right; split; [assumption | reflexivity].
Qed.

Lemma NoDup_filter (f : A -> bool) (l : list A) : NoDup l -> NoDup (filter f l).
Proof.
  induction 1 as [|x l Hx Hl IH]; simpl; [constructor|].
  destruct (f x); auto. constructor; auto.
  rewrite filter_In; tauto.
Qed.

Lemma NoDup_unique (l : list A) : NoDup (unique eqb l).
Proof.
  induction l as [|y l IH]; simpl; constructor.
  - rewrite filter_In. intros [_ H].
    assert (E : eqb y y = true) by now apply eqb_spec.
    rewrite E in H; discriminate.
  - now apply NoDup_filter.
Qed.

End ListFacts.

Lemma In_dropna A (col : list (option A)) (x : A) : In x (dropna col) <-> In (Some x) col.
Proof.
  induction col as [|[y|] col IH]; simpl; [tauto| |].
  - rewrite IH. split; intros [H|H]; auto; left; congruence.
  - rewrite IH. split; [auto | intros [H|H]; [discriminate | auto]].
Qed.

Lemma In_dropna_unique (col : list (option string)) (x : string) :
  In x (dropna_unique col) <-> In (Some x) col.
Proof.
  unfold dropna_unique. rewrite (In_unique _ String.eqb_eq). apply In_dropna.
Qed.

Section SortFacts.

Context {A : Type} (le : A -> A -> bool).

Lemma insert_perm (x : A) (l : list A) : Permutation (insert le x l) (x :: l).
Proof.
  induction l as [|y l IH]; simpl; [reflexivity|].
  destruct (le x y); [reflexivity|].
  rewrite IH. apply perm_swap.
Qed.

Lemma sorted_by_perm (l : list A) : Permutation (sorted_by le l) l.
Proof.
  induction l as [|x l IH]; simpl; [reflexivity|].
  rewrite insert_perm. now constructor.
Qed.

Hypothesis le_total : forall x y, le x y = true \/ le y x = true.

Lemma insert_sorted (x : A) (l : list A) :
  Sorted (fun a b => le a b = true) l ->
  Sorted (fun a b => le a b = true) (insert le x l).
Proof.
  induction 1 as [|y l Hl IH Hy]; simpl.
  - repeat constructor.
  - destruct (le x y) eqn:E.
    + repeat constructor; assumption.
    + constructor; [exact IH|].
      assert (Hyx : le y x = true) by (destruct (le_total x y); congruence).
      destruct Hy as [|z l Hz]; simpl.
      * now constructor.
      * destruct (le x z); now constructor.
Qed.

Lemma sorted_by_sorted (l : list A) : Sorted (fun a b => le a b = true) (sorted_by le l).
Proof.
  induction l as [|x l IH]; simpl; [constructor | now apply insert_sorted].
Qed.

End SortFacts.

(** [sorted] lists what it was given, in order, adding and dropping
    nothing. *)
Lemma sorted_spec (l : list string) :
  Permutation (sorted l) l /\ Sorted (fun a b => (a <=? b) = true) (sorted l).
Proof.
  split; [apply sorted_by_perm | apply sorted_by_sorted, String.leb_total].
Qed.

(** ** Number formatting *)

Section FormatFacts.

Local Open Scope Q_scope.

(** A value less than a half away from an integer rounds to it. *)
Lemma round_half_even_near (x : Q) (n : Z) :
  inject_Z n - (1 # 2) < x -> x < inject_Z n + (1 # 2) -> round_half_even x = n.
Proof.
  intros Hlo Hhi. unfold round_half_even.
  pose proof (Qfloor_le x) as Hf1. pose proof (Qlt_floor x) as Hf2.
  rewrite inject_Z_plus in Hf2. change (inject_Z 1) with 1 in Hf2.
  assert (Hle : (Qfloor x < n + 1)%Z).
  { rewrite Zlt_Qlt, inject_Z_plus. change (inject_Z 1) with 1. lra. }
  assert (Hge : (n < Qfloor x + 2)%Z).
  { rewrite Zlt_Qlt, inject_Z_plus. change (inject_Z 2) with 2. lra. }
  destruct (Z.eq_dec (Qfloor x) n) as [E|E].
  - rewrite E.
    assert (H : x - inject_Z n < 1 # 2) by lra.
    now rewrite (proj1 (Qlt_alt _ _) H).
  - assert (E' : n = (Qfloor x + 1)%Z) by lia.
    rewrite E', inject_Z_plus in Hlo. change (inject_Z 1) with 1 in Hlo.
    assert (H : x - inject_Z (Qfloor x) > 1 # 2) by lra.
    rewrite (proj1 (Qgt_alt _ _) H). lia.
Qed.

(** Every value within half a cent of 1234567.89 is shown as that amount:
    1234567.891 itself, and the double nearest to it. *)
Lemma dollars_half_cent (v : Q) :
  1234567885 # 1000 < v -> v < 1234567895 # 1000 ->
  dollars v = "$1,234,567.89"%string.
Proof.
  intros Hlo Hhi. unfold dollars, format_fixed.
  rewrite (round_half_even_near _ 123456789).
  - assert (H : v > 0) by lra.
    rewrite (proj1 (Qgt_alt _ _) H). vm_compute. reflexivity.
  - change (inject_Z (10 ^ Z.of_nat 2)) with 100.
    change (inject_Z 123456789) with 123456789. lra.
  - change (inject_Z (10 ^ Z.of_nat 2)) with 100.
    change (inject_Z 123456789) with 123456789. lra.
Qed.

End FormatFacts.

(** ** Masks and selections *)

Section MaskFacts.

Context {R : Type}.

Lemma mask_or_map (p q : R -> bool) (df : list R) :
  mask_or (map p df) (map q df) = map (fun r => p r || q r) df.
Proof. unfold mask_or. induction df; simpl; congruence. Qed.

Lemma mask_sum_map (p : R -> bool) (df : list R) :
  mask_sum (map p df) = List.length (filter p df).
Proof.
  unfold mask_sum. induction df as [|r df IH]; simpl; [reflexivity|].
  destruct (p r); simpl; congruence.
Qed.

Lemma select_map (p : R -> bool) (df : list R) : select df (map p df) = filter p df.
Proof.
  unfold select. induction df as [|r df IH]; simpl; [reflexivity|].
  destruct (p r); simpl; congruence.
Qed.

Lemma select_none (df : list R) (mask : list bool) :
  mask_sum mask = 0%nat -> select df mask = [].
Proof.
  unfold select, mask_sum. revert mask.
  induction df as [|r df IH]; intros [|b mask]; simpl; try reflexivity.
  destruct b; simpl; [discriminate | apply IH].
Qed.

Lemma filter_length_le (p q : R -> bool) (df : list R) :
  (forall r, p r = true -> q r = true) ->
  (List.length (filter p df) <= List.length (filter q df))%nat.
Proof.
  intros H. induction df as [|r df IH]; simpl; [lia|].
  destruct (p r) eqn:E.
  - rewrite (H r E). simpl. lia.
  - destruct (q r); simpl; lia.
Qed.

End MaskFacts.

(** ** Methods read the object and leave it alone *)

Section ReadOnly.

Lemma readonly_ret A (a : A) : readonly (ret a).
Proof. intro; reflexivity. Qed.

Lemma readonly_raise A (e : exn) : readonly (@raise A e).
Proof. intro; reflexivity. Qed.

Lemma readonly_bind A B (m : M A) (k : A -> M B) :
  readonly m -> (forall a, readonly (k a)) -> readonly (bind m k).
Proof.
  intros Hm Hk self. unfold bind.
  specialize (Hm self). destruct (m self) as [[a|e] self']; simpl in *; subst.
  - apply Hk.
  - reflexivity.
Qed.

Lemma readonly_holdings e : readonly (holdings e).
Proof. intro self; unfold holdings; destruct (holdings_df self); reflexivity. Qed.

Lemma readonly_trades e : readonly (trades e).
Proof. intro self; unfold trades; destruct (trades_df self); reflexivity. Qed.

Lemma readonly_if_fund A (o : option string) (yes : string -> M A) (no : M A) :
  (forall name, readonly (yes name)) -> readonly no -> readonly (if_fund o yes no).
Proof.
  intros Hy Hn. unfold if_fund. destruct o as [name|]; [destruct (is_empty name)|]; auto.
Qed.

(** What a read-only method computes is all there is to its run. *)
Lemma readonly_run A (m : M A) self : readonly m -> m self = (fst (m self), self).
Proof. intros H. specialize (H self). destruct (m self); simpl in *; now subst. Qed.

End ReadOnly.

Create HintDb ro.
#[local] Hint Resolve readonly_ret readonly_raise readonly_holdings readonly_trades : ro.

(** Solves [readonly m] for a method written with [bind], [ret], [raise],
    the two table reads and case distinctions. *)
Ltac ro_step :=
  match goal with
  | |- readonly (bind _ _) => apply readonly_bind; [ | intro ]
  | |- readonly (if_fund _ _ _) => apply readonly_if_fund; [ intro | ]
  | |- readonly (match ?x with _ => _ end) => destruct x
  | |- readonly (if ?b then _ else _) => destruct b
  | |- readonly _ => solve [ auto with ro ]
  end.
Ltac ro := repeat ro_step.

Section MethodsReadOnly.

Variable rt : PyRuntime.

Lemma readonly_holdings_col A (col : HoldingRecord -> A) : readonly (holdings_col col).
Proof. unfold holdings_col; ro. Qed.

Lemma readonly_trades_col A (col : TradeRecord -> A) : readonly (trades_col col).
Proof. unfold trades_col; ro. Qed.

Lemma readonly_str_contains col pat : readonly (str_contains rt col pat).
Proof. unfold str_contains; ro. Qed.

Lemma readonly_str_accessor col : readonly (str_accessor col).
Proof. unfold str_accessor; ro. Qed.

Hint Resolve readonly_holdings_col readonly_trades_col readonly_str_contains
  readonly_str_accessor : ro.

Lemma readonly_join_cells sep cells : readonly (join_cells sep cells).
Proof.
  induction cells as [|[s|] cells IH]; simpl; auto with ro.
  destruct cells; auto with ro.
  apply readonly_bind; [exact IH | intro; auto with ro].
Qed.

Lemma readonly_get_all_funds : readonly (get_all_funds rt).
Proof. unfold get_all_funds; ro. Qed.

Lemma readonly_holdings_fund_mask name : readonly (holdings_fund_mask rt name).
Proof. unfold holdings_fund_mask; ro. Qed.

Lemma readonly_trades_fund_mask name : readonly (trades_fund_mask rt name).
Proof. unfold trades_fund_mask; ro. Qed.

Hint Resolve readonly_join_cells readonly_get_all_funds
  readonly_holdings_fund_mask readonly_trades_fund_mask : ro.

Lemma readonly_holdings_for_fund name : readonly (holdings_for_fund rt name).
Proof. unfold holdings_for_fund; ro. Qed.

Lemma readonly_extract_fund_name question : readonly (extract_fund_name rt question).
Proof. unfold extract_fund_name; ro. Qed.

Hint Resolve readonly_holdings_for_fund readonly_extract_fund_name : ro.

Lemma readonly_get_pnl column fund_name : readonly (get_pnl rt column fund_name).
Proof. unfold get_pnl; ro. Qed.

Hint Resolve readonly_get_pnl : ro.

Lemma readonly_answer_security_type_count sec_types question_lower :
  readonly (answer_security_type_count rt sec_types question_lower).
Proof.
  induction sec_types as [|sec_type rest IH]; simpl; auto with ro.
  destruct (str_in (lower sec_type) question_lower); [|exact IH].
  apply readonly_bind.
  - unfold get_holdings_by_security_type; ro.
  - intro count. destruct (0 <? count)%nat; auto with ro.
Qed.

Hint Resolve readonly_answer_security_type_count : ro.

Lemma readonly_answer i question : readonly (answer rt i question).
Proof.
  destruct i; cbn [answer];
    unfold answer_list_funds, answer_total_holdings, answer_total_trades,
      answer_ranking, answer_pnl, answer_securities, answer_security_types,
      answer_trade_types, answer_trades_by_type, answer_market_value,
      answer_custodians, answer_counterparties, answer_quantity,
      get_fund_pnl_ytd, get_pnl_mtd, get_pnl_qtd,
      get_total_holdings_for_fund, get_total_trades_for_fund, get_total_holdings,
      get_total_trades, get_best_performing_funds, get_worst_performing_funds,
      get_fund_performance_ranking, get_securities_for_fund,
      get_security_types_for_fund, get_trade_types_summary, get_trades_by_type,
      get_fund_market_value, get_custodians, get_counterparties,
      get_security_types, get_total_quantity_for_fund;
    ro.
Qed.

(** [process_question] is the dispatch on the classified question. *)
Lemma process_question_answer question :
  process_question rt question = answer rt (classify (strip (lower question))) question.
Proof.
  unfold process_question, classify.
  repeat match goal with
         | |- context [if ?b then _ else _] => destruct b; [reflexivity|]
         end.
  reflexivity.
Qed.

Lemma readonly_process_question question : readonly (process_question rt question).
Proof. rewrite process_question_answer. apply readonly_answer. Qed.

End MethodsReadOnly.

(* ================================================================= *)
(** ** What the specification states of [process_question] *)

Section Answers.

Variable rt : PyRuntime.

Lemma extract_fund_name_lower q q' :
  lower q = lower q' -> extract_fund_name rt q = extract_fund_name rt q'.
Proof. intros H. unfold extract_fund_name. now rewrite H. Qed.

(** C8. The empty question is answered with "Please enter a question."
    whatever the object holds, loaded tables or none: the answer is given
    before any rule is tried and no table is read. *)
Theorem empty_question_prompt (self : DataChatbot) :
  classify (strip (lower "")) = Empty /\
  process_question rt "" self = (Ok "Please enter a question.", self).
Proof. split; reflexivity. Qed.

(** C10. Two questions that differ only in letter case, that is with the
    same lowercased text, get the same answer from the same object. *)
Theorem case_insensitive (q q' : string) (self : DataChatbot) :
  lower q = lower q' ->
  process_question rt q self = process_question rt q' self.
Proof.
  intros H. rewrite !process_question_answer, <- H.
  destruct (classify (strip (lower q))); cbn [answer]; try reflexivity;
    unfold answer_total_holdings, answer_total_trades, answer_pnl,
      answer_securities, answer_security_types, answer_market_value,
      answer_quantity;
    rewrite <- ?(extract_fund_name_lower _ _ H), <- ?H; reflexivity.
Qed.

(** C6. Asking the same question twice gives the same answer twice, and the
    object, with its two tables, is after each call what it was before. *)
Theorem repeated_question (q : string) (self : DataChatbot) :
  let first := process_question rt q self in
  let second := process_question rt q (snd first) in
  fst second = fst first /\
  snd first = self /\ snd second = self /\
  holdings_df (snd second) = holdings_df self /\
  trades_df (snd second) = trades_df self.
Proof.
  cbv zeta.
  assert (H1 : snd (process_question rt q self) = self)
    by apply readonly_process_question.
  rewrite H1. repeat split; rewrite ?H1; reflexivity.
Qed.

(** What the trades-count rule can answer. *)
Lemma answer_total_trades_shape q self s :
  fst (answer_total_trades rt q self) = Ok s ->
  (exists name n, s = "Total number of trades for " ++ name ++ ": " ++ str_of_nat n) \/
  (exists n, s = "Total number of trades across all funds: " ++ str_of_nat n) \/
  (exists name, s = fund_sentinel name).
Proof.
  unfold answer_total_trades, bind.
  destruct (extract_fund_name rt q self) as [[fund_name|e] self1]; [|discriminate].
  assert (Hno : forall self',
    fst (match get_total_trades self' with
         | (Ok n, self2) =>
             ret ("Total number of trades across all funds: " ++ str_of_nat n) self2
         | (Raise e, self2) => (Raise e, self2)
         end) = Ok s ->
    exists n, s = "Total number of trades across all funds: " ++ str_of_nat n).
  { intros self'. destruct (get_total_trades self') as [[n|e] self2]; simpl;
      [intros [= <-]; now exists n | discriminate]. }
  unfold if_fund. destruct fund_name as [name|]; [destruct (is_empty name)|];
    try (intros H; right; left; exact (Hno _ H)).
  destruct (get_total_trades_for_fund rt name self1) as [[[[|c]|]|e] self2]; simpl;
    try discriminate; intros [= <-].
  - right; right; now exists name.
  - left; now exists name, (S c).
  - right; right; now exists name.
Qed.

(** C2, as the code has it. A question with "total", "trades" and a YTD
    phrase that triggers neither the list-funds rule nor the holdings-count
    rule is answered by the trades-count rule: with that rule's answer, and
    with no "YTD P&L ..." answer. *)
Theorem total_trades_outranks_pnl (q : string) (self : DataChatbot) :
  let question_lower := strip (lower q) in
  str_in "total" question_lower = true ->
  str_in "trades" question_lower = true ->
  asks_ytd question_lower = true ->
  asks_list_funds question_lower = false ->
  asks_total_holdings question_lower = false ->
  classify question_lower = TotalTrades /\
  process_question rt q self = answer_total_trades rt q self /\
  forall s, fst (process_question rt q self) = Ok s -> prefix "YTD P&L" s = false.
Proof.
  cbv zeta. intros Htotal Htrades _ Hlist Hholdings.
  assert (Hc : classify (strip (lower q)) = TotalTrades).
  { unfold classify. rewrite Hlist, Hholdings.
    unfold asks_total_trades. rewrite Htotal, Htrades.
    destruct (strip (lower q)); [discriminate Htotal | reflexivity]. }
  assert (Hp : process_question rt q self = answer_total_trades rt q self)
    by (rewrite process_question_answer, Hc; reflexivity).
  repeat split; auto.
  intros s Hs. rewrite Hp in Hs.
  destruct (answer_total_trades_shape _ _ _ Hs) as [[name [n ->]] | [[n ->] | [name ->]]];
    reflexivity.
Qed.

(** C3, what the code answers. "How many buy trades?" has "how many" and
    "trades" in it, so the trades-count rule answers before the buy-count
    rule is tried: without a fund in the question the answer is the number
    of all trades. *)
Theorem how_many_buy_trades_counts_all (self : DataChatbot) (ts : list TradeRecord) :
  trades_df self = Some ts ->
  fst (extract_fund_name rt "How many buy trades?" self) = Ok None ->
  classify (strip (lower "How many buy trades?")) = TotalTrades /\
  fst (process_question rt "How many buy trades?" self)
  = Ok ("Total number of trades across all funds: " ++ str_of_nat (List.length ts)).
Proof.
  intros Hts Hfund. split; [reflexivity|].
  rewrite process_question_answer.
  change (classify (strip (lower "How many buy trades?"))) with TotalTrades.
  cbn [answer]. unfold answer_total_trades, bind.
  rewrite (readonly_run _ (extract_fund_name rt "How many buy trades?") self)
    by apply readonly_extract_fund_name.
  rewrite Hfund. cbn [if_fund].
  unfold get_total_trades, bind, trades. rewrite Hts. reflexivity.
Qed.

Hypothesis rt_laws : PyRuntimeLaws rt.

Lemma get_all_funds_loaded self hs ts :
  holdings_df self = Some hs -> trades_df self = Some ts ->
  exists funds,
    get_all_funds rt self = (Ok funds, self) /\ NoDup funds /\
    forall f, In f funds <-> fund_identifier hs ts f.
Proof.
  intros Hhs Hts. eexists. split; [|split].
  - unfold get_all_funds, holdings_col, trades_col, bind, holdings, trades, ret.
    cbv beta. rewrite Hhs. cbv beta iota. rewrite Hhs, Hts. reflexivity.
  - apply (set_iter_NoDup _ rt_laws).
  - intros f. rewrite (set_iter_In _ rt_laws), !in_app_iff, !In_dropna_unique.
    reflexivity.
Qed.

Lemma asks_nonempty (trigger : string -> bool) question_lower :
  trigger "" = false -> trigger question_lower = true -> is_empty question_lower = false.
Proof. destruct question_lower; [congruence | reflexivity]. Qed.


Lemma run_extract q self o :
  fst (extract_fund_name rt q self) = Ok o -> extract_fund_name rt q self = (Ok o, self).
Proof.
  intros H. rewrite (readonly_run _ _ self (readonly_extract_fund_name rt q)).
  now rewrite H.
Qed.

Lemma run_holdings_for_fund name self rows :
  fst (holdings_for_fund rt name self) = Ok rows ->
  holdings_for_fund rt name self = (Ok rows, self).
Proof.
  intros H. rewrite (readonly_run _ _ self (readonly_holdings_for_fund rt name)).
  now rewrite H.
Qed.

Lemma length_pos A (l : list A) : l <> [] -> (0 <? List.length l)%nat = true.
Proof. destruct l; [congruence | reflexivity]. Qed.

(** C7. When the YTD rule answers for a fund, and the sum pandas computes
    of the YTD P&L of the selected holdings is 1234567.891 or any number
    less than half a cent from 1234567.89, as the float64 nearest to
    1234567.891 is, the answer shows the sum as [$1,234,567.89]. *)
Theorem ytd_sum_rendering (q : string) (self : DataChatbot) (name : string)
    (rows : list HoldingRecord) :
  classify (strip (lower q)) = Ytd ->
  fst (extract_fund_name rt q self) = Ok (Some name) -> name <> "" ->
  fst (holdings_for_fund rt name self) = Ok rows -> rows <> [] ->
  1234567885 # 1000 < col_sum rt (map PL_YTD rows) ->
  col_sum rt (map PL_YTD rows) < 1234567895 # 1000 ->
  fst (process_question rt q self) = Ok ("YTD P&L for " ++ name ++ ": $1,234,567.89").
Proof.
  intros Hc Hfund Hname Hrows Hne Hlo Hhi.
  rewrite process_question_answer, Hc. cbn [answer].
  unfold answer_pnl, bind. rewrite (run_extract _ _ _ Hfund).
  apply is_empty_false in Hname.
  unfold get_fund_pnl_ytd, get_pnl, if_fund. rewrite Hname.
  unfold bind. rewrite (run_holdings_for_fund _ _ _ Hrows), (length_pos _ _ Hne).
  cbn [ret fst]. now rewrite (dollars_half_cent _ Hlo Hhi).
Qed.

(** *** The fund filter on a loaded object *)

Lemma re_special_lower c : re_special (lower_char c) = re_special c.
Proof. destruct c as [[] [] [] [] [] [] [] []]; reflexivity. Qed.

Lemma re_plain_lower s : re_plain (lower s) = re_plain s.
Proof.
  induction s as [|c s IH]; simpl; [reflexivity|].
  now rewrite re_special_lower, IH.
Qed.

Lemma str_contains_plain col pat self :
  re_plain pat = true ->
  str_contains rt col pat self
  = (Ok (map (fun c => match c with Some s => str_in pat s | None => false end) col),
     self).
Proof.
  intros Hp. unfold str_contains.
  destruct (re_compile_plain _ rt_laws pat Hp) as [f [-> Hf]].
  unfold ret. do 2 f_equal. apply map_ext. intros [c|]; auto.
Qed.

Lemma str_contains_lower (col : list (option string)) name :
  map (fun c => match c with Some s => str_in (lower name) s | None => false end)
      (str_lower col)
  = map (cell_has name) col.
Proof. unfold str_lower. rewrite map_map. apply map_ext. intros [c|]; reflexivity. Qed.

Lemma str_accessor_text col self :
  is_text col = true -> str_accessor col self = (Ok col, self).
Proof. intros H. unfold str_accessor. now rewrite H. Qed.

Lemma holdings_fund_mask_plain name self hs :
  holdings_df self = Some hs ->
  is_text (map ShortName hs) = true -> is_text (map PortfolioName hs) = true ->
  re_plain (lower name) = true ->
  holdings_fund_mask rt name self = (Ok (map (holding_matches name) hs), self).
Proof.
  intros Hhs Hshort Hport Hp.
  unfold holdings_fund_mask, holdings_col, bind, holdings, ret at 1 2.
  cbv beta. rewrite Hhs. cbv beta iota.
  rewrite (str_accessor_text _ _ Hshort), (str_contains_plain _ _ _ Hp).
  cbv beta iota. rewrite Hhs. cbv beta iota.
  rewrite (str_accessor_text _ _ Hport), (str_contains_plain _ _ _ Hp).
  cbv beta iota.
  rewrite !str_contains_lower, !map_map, mask_or_map. reflexivity.
Qed.

Lemma holdings_for_fund_plain name self hs :
  holdings_df self = Some hs ->
  is_text (map ShortName hs) = true -> is_text (map PortfolioName hs) = true ->
  re_plain (lower name) = true ->
  holdings_for_fund rt name self = (Ok (filter (holding_matches name) hs), self).
Proof.
  intros Hhs Hshort Hport Hp. unfold holdings_for_fund, bind.
  rewrite (holdings_fund_mask_plain _ _ _ Hhs Hshort Hport Hp).
  unfold holdings, ret. now rewrite Hhs, select_map.
Qed.

Lemma trades_fund_mask_plain name self ts :
  trades_df self = Some ts -> is_text (map TradePortfolioName ts) = true ->
  re_plain (lower name) = true ->
  trades_fund_mask rt name self = (Ok (map (trade_matches name) ts), self).
Proof.
  intros Hts Hport Hp.
  unfold trades_fund_mask, trades_col, bind, trades, ret.
  cbv beta. rewrite Hts. cbv beta iota.
  now rewrite (str_accessor_text _ _ Hport), (str_contains_plain _ _ _ Hp),
    str_contains_lower, map_map.
Qed.

(** A name contained in another, letter case aside, matches every cell the
    other matches. *)
Lemma cell_has_mono a b c :
  str_in (lower a) (lower b) = true -> cell_has b c = true -> cell_has a c = true.
Proof. destruct c as [s|]; simpl; [apply str_in_trans | auto]. Qed.

Lemma holding_matches_mono a b r :
  str_in (lower a) (lower b) = true ->
  holding_matches b r = true -> holding_matches a r = true.
Proof.
  intros Hab. unfold holding_matches. rewrite !orb_true_iff.
  intros [H|H]; [left | right]; exact (cell_has_mono _ _ _ Hab H).
Qed.

Lemma aggregates_by_containment self hs ts name :
  holdings_df self = Some hs -> trades_df self = Some ts ->
  name_columns_text hs ts ->
  name <> "" -> re_plain (lower name) = true ->
  aggregates_over_matching_rows rt self hs ts name.
Proof.
  intros Hhs Hts [Hshort [Hport Htport]] Hname Hp. apply is_empty_false in Hname.
  unfold aggregates_over_matching_rows, get_total_holdings_for_fund,
    get_total_trades_for_fund, get_fund_pnl_ytd, get_pnl_mtd, get_pnl_qtd, get_pnl,
    get_fund_market_value, get_securities_for_fund, get_security_types_for_fund,
    get_total_quantity_for_fund, if_fund, bind, over_rows, positive.
  rewrite Hname, (holdings_fund_mask_plain _ _ _ Hhs Hshort Hport Hp),
    (trades_fund_mask_plain _ _ _ Hts Htport Hp),
    (holdings_for_fund_plain _ _ _ Hhs Hshort Hport Hp), !mask_sum_map.
  cbv zeta.
  destruct (0 <? List.length (filter (holding_matches name) hs))%nat;
    repeat split; reflexivity.
Qed.

(** C9. For fund names free of regular-expression syntax, searched in text
    columns, every fund-scoped aggregate is computed over the rows whose
    lowercased short name or portfolio name contains the lowercased fund
    name.  So when the name [a] is contained in the name [b], the rows
    selected for [a] include those selected for [b], the rows named [b]
    among them, in the holdings and in the trades. *)
Theorem fund_filter_is_containment (self : DataChatbot) (hs : list HoldingRecord)
    (ts : list TradeRecord) (a b : string) :
  holdings_df self = Some hs -> trades_df self = Some ts ->
  name_columns_text hs ts ->
  a <> "" -> b <> "" ->
  re_plain a = true -> re_plain b = true ->
  str_in a b = true ->
  aggregates_over_matching_rows rt self hs ts a /\
  aggregates_over_matching_rows rt self hs ts b /\
  incl (filter (holding_matches b) hs) (filter (holding_matches a) hs) /\
  incl (filter (trade_matches b) ts) (filter (trade_matches a) ts) /\
  (forall r, In r hs -> ShortName r = Some b \/ PortfolioName r = Some b ->
             In r (filter (holding_matches a) hs)) /\
  (forall r, In r ts -> TradePortfolioName r = Some b ->
             In r (filter (trade_matches a) ts)) /\
  (List.length (filter (holding_matches b) hs)
   <= List.length (filter (holding_matches a) hs))%nat /\
  (List.length (filter (trade_matches b) ts)
   <= List.length (filter (trade_matches a) ts))%nat.
Proof.
  intros Hhs Hts Htext Ha Hb Hpa Hpb Hab. apply str_in_lower in Hab.
  rewrite <- re_plain_lower in Hpa, Hpb.
  split; [now apply aggregates_by_containment|].
  split; [now apply aggregates_by_containment|].
  assert (Hh : forall r, holding_matches b r = true -> holding_matches a r = true)
    by (intros r; now apply holding_matches_mono).
  assert (Ht : forall r, trade_matches b r = true -> trade_matches a r = true)
    by (intros r; now apply cell_has_mono).
  repeat split.
  - intros r. rewrite !filter_In. intros [Hr Hm]; auto.
  - intros r. rewrite !filter_In. intros [Hr Hm]; auto.
  - intros r Hr Hnamed. apply filter_In. split; [exact Hr|].
    unfold holding_matches.
    destruct Hnamed as [-> | ->]; simpl; rewrite Hab; auto using orb_true_r.
  - intros r Hr Hnamed. apply filter_In. split; [exact Hr|].
    unfold trade_matches. rewrite Hnamed. exact Hab.
  - now apply filter_length_le.
  - now apply filter_length_le.
Qed.

(** *** A fund without rows *)

Lemma run_holdings_fund_mask name self mask :
  fst (holdings_fund_mask rt name self) = Ok mask ->
  holdings_fund_mask rt name self = (Ok mask, self).
Proof.
  intros H. rewrite (readonly_run _ _ self (readonly_holdings_fund_mask rt name)).
  now rewrite H.
Qed.

Lemma run_trades_fund_mask name self mask :
  fst (trades_fund_mask rt name self) = Ok mask ->
  trades_fund_mask rt name self = (Ok mask, self).
Proof.
  intros H. rewrite (readonly_run _ _ self (readonly_trades_fund_mask rt name)).
  now rewrite H.
Qed.

Lemma holdings_for_fund_none name self mask :
  fst (holdings_fund_mask rt name self) = Ok mask -> mask_sum mask = 0%nat ->
  holdings_for_fund rt name self = (Ok [], self).
Proof.
  intros Hmask Hsum.
  assert (Hhs : exists hs, holdings_df self = Some hs).
  { revert Hmask. unfold holdings_fund_mask, holdings_col, bind, holdings.
    destruct (holdings_df self) as [hs|]; [eauto | discriminate]. }
  destruct Hhs as [hs Hhs].
  unfold holdings_for_fund, bind. rewrite (run_holdings_fund_mask _ _ _ Hmask).
  unfold holdings, ret. now rewrite Hhs, (select_none _ _ Hsum).
Qed.

Lemma fund_sentinel_not_generic name : fund_sentinel name <> sentinel.
Proof.
  unfold fund_sentinel, sentinel. intros H.
  apply (f_equal String.length) in H. simpl in H. lia.
Qed.

(** C4. When the rule that answers is fund-scoped, a fund name is extracted
    from the question and the rule's filter selects no row of its table, the
    answer is the sentinel naming that fund, which is not the generic one. *)
Theorem no_rows_gives_fund_sentinel (q : string) (self : DataChatbot) (name : string)
    (mask : list bool) :
  fund_scoped (classify (strip (lower q))) = true ->
  fst (extract_fund_name rt q self) = Ok (Some name) -> name <> "" ->
  fst (fund_filter rt (classify (strip (lower q))) name self) = Ok mask ->
  mask_sum mask = 0%nat ->
  fst (process_question rt q self) = Ok (fund_sentinel name) /\
  fund_sentinel name <> sentinel.
Proof.
  intros Hscoped Hfund Hname Hmask Hsum.
  split; [|apply fund_sentinel_not_generic].
  rewrite process_question_answer.
  apply is_empty_false in Hname.
  destruct (classify (strip (lower q))); try discriminate Hscoped;
    cbn [answer fund_filter] in *;
    unfold answer_total_holdings, answer_total_trades, answer_pnl, answer_securities,
      answer_security_types, answer_market_value, answer_quantity, bind;
    rewrite (run_extract _ _ _ Hfund); unfold if_fund; rewrite Hname;
    unfold get_total_holdings_for_fund, get_total_trades_for_fund,
      get_fund_pnl_ytd, get_pnl_mtd, get_pnl_qtd, get_pnl, get_securities_for_fund,
      get_security_types_for_fund, get_fund_market_value,
      get_total_quantity_for_fund, if_fund, bind;
    rewrite ?Hname, ?(run_holdings_fund_mask _ _ _ Hmask),
      ?(run_trades_fund_mask _ _ _ Hmask), ?(holdings_for_fund_none _ _ _ Hmask Hsum),
      ?Hsum;
    reflexivity.
Qed.

(** *** Questions on loaded tables *)

Lemma returns_ret A (a : A) self : returns (ret a) self.
Proof. now exists a. Qed.

Lemma returns_bind A B (m : M A) (k : A -> M B) self a :
  m self = (Ok a, self) -> returns (k a) self -> returns (bind m k) self.
Proof. intros Hm [b Hb]. exists b. unfold bind. now rewrite Hm. Qed.

Lemma set_iter_nil : set_iter rt [] = [].
Proof.
  destruct (set_iter rt []) as [|x l] eqn:E; [reflexivity|].
  exfalso. apply (set_iter_In _ rt_laws [] x). rewrite E. now left.
Qed.

Lemma np_sort_nil A (key : A -> Q) asc : np_sort rt A key asc [] = [].
Proof. apply Permutation_nil. symmetry. apply (np_sort_perm _ rt_laws). Qed.

Section Loaded.

Variables (self : DataChatbot) (hs : list HoldingRecord) (ts : list TradeRecord).
Hypothesis Hhs : holdings_df self = Some hs.
Hypothesis Hts : trades_df self = Some ts.

Lemma run_holdings e : holdings e self = (Ok hs, self).
Proof. unfold holdings. now rewrite Hhs. Qed.

Lemma run_trades e : trades e self = (Ok ts, self).
Proof. unfold trades. now rewrite Hts. Qed.

Lemma run_holdings_col A (col : HoldingRecord -> A) :
  holdings_col col self = (Ok (map col hs), self).
Proof. unfold holdings_col, bind. now rewrite run_holdings. Qed.

Lemma run_trades_col A (col : TradeRecord -> A) :
  trades_col col self = (Ok (map col ts), self).
Proof. unfold trades_col, bind. now rewrite run_trades. Qed.

Lemma extract_fund_name_loaded q :
  exists o, extract_fund_name rt q self = (Ok o, self) /\
            forall name, o = Some name -> fund_identifier hs ts name.
Proof.
  destruct (get_all_funds_loaded self hs ts Hhs Hts) as [funds [Hrun [_ Hin]]].
  unfold extract_fund_name, bind. rewrite Hrun.
  destruct (find _ funds) as [fund|] eqn:E1.
  - exists (Some fund). split; [reflexivity|].
    intros name [= <-]. apply Hin. exact (proj1 (find_some _ _ E1)).
  - eexists. split; [reflexivity|].
    intros name E2. apply Hin. exact (proj1 (find_some _ _ E2)).
Qed.

Lemma returns_join_cells sep cells :
  (forall c, In c cells -> c <> None) -> returns (join_cells sep cells) self.
Proof.
  induction cells as [|[s|] cells IH]; intros Hc.
  - apply returns_ret.
  - destruct cells as [|c cells]; [apply returns_ret|].
    destruct IH as [rest Hrest]; [intros c' Hc'; apply Hc; now right|].
    exists (s ++ sep ++ rest). change (join_cells sep (Some s :: c :: cells))
      with (bind (join_cells sep (c :: cells)) (fun rest => ret (s ++ sep ++ rest))).
    unfold bind. now rewrite Hrest.
  - exfalso. apply (Hc None); [now left | reflexivity].
Qed.

Lemma run_get_holdings_by_security_type sec_type :
  is_text (map SecurityTypeName hs) = true ->
  re_plain (lower sec_type) = true ->
  get_holdings_by_security_type rt sec_type self
  = (Ok (List.length (filter (fun r => cell_has sec_type (SecurityTypeName r)) hs)),
     self).
Proof.
  intros Htext Hp. unfold get_holdings_by_security_type, bind.
  rewrite run_holdings_col, (str_accessor_text _ _ Htext),
    (str_contains_plain _ _ _ Hp), str_contains_lower, map_map.
  unfold ret. now rewrite mask_sum_map.
Qed.

Lemma returns_answer_security_type_count sec_types question_lower :
  is_text (map SecurityTypeName hs) = true ->
  Forall (fun t => re_plain (lower t) = true) sec_types ->
  returns (answer_security_type_count rt sec_types question_lower) self.
Proof.
  intros Htext.
  induction 1 as [|sec_type rest Hp _ IH]; simpl; [apply returns_ret|].
  destruct (str_in (lower sec_type) question_lower); [|exact IH].
  eapply returns_bind; [exact (run_get_holdings_by_security_type _ Htext Hp)|].
  destruct (0 <? _)%nat; [apply returns_ret | exact IH].
Qed.

Hypothesis Hwf : well_formed_tables hs ts.

Lemma cell_eqb_eq a b : cell_eqb a b = true <-> a = b.
Proof.
  destruct a as [x|], b as [y|]; simpl; try (split; congruence).
  rewrite String.eqb_eq. split; congruence.
Qed.

(** The answer of a rule that first looks for a fund in the question. *)
Lemma returns_with_fund q (yes : string -> M string) (no : M string) :
  (forall name, name <> "" -> re_plain (lower name) = true -> returns (yes name) self) ->
  returns no self ->
  returns (bind (extract_fund_name rt q) (fun o => if_fund o yes no)) self.
Proof.
  intros Hyes Hno.
  destruct (extract_fund_name_loaded q) as [o [Hrun Hid]].
  apply (returns_bind _ _ _ _ _ _ Hrun).
  unfold if_fund. destruct o as [name|]; [|exact Hno].
  destruct (is_empty name) eqn:E; [exact Hno|].
  apply Hyes; [now apply is_empty_false|].
  rewrite re_plain_lower. now apply (proj1 Hwf), Hid.
Qed.

Lemma security_types_text : is_text (map SecurityTypeName hs) = true.
Proof.
  destruct Hwf as [_ [Htypes _]].
  destruct hs as [|r hs']; [reflexivity|].
  simpl. destruct (SecurityTypeName r) eqn:E; [reflexivity|].
  exfalso. apply (Htypes r); [now left | exact E].
Qed.

Lemma returns_answer i q : returns (answer rt i q) self.
Proof.
  destruct (get_all_funds_loaded self hs ts Hhs Hts) as [funds [Hfunds _]].
  destruct Hwf as [_ [_ [[Hshort [Hport Htport]] Htype]]].
  destruct i; cbn [answer]; try apply returns_ret;
    unfold answer_list_funds, answer_total_holdings, answer_total_trades,
      answer_ranking, answer_pnl, answer_securities, answer_security_types,
      answer_trade_types, answer_trades_by_type, answer_market_value,
      answer_custodians, answer_counterparties, answer_quantity;
    try (apply returns_with_fund; [intros name Hname Hp; apply is_empty_false in Hname|]);
    try apply returns_ret;
    unfold returns, get_fund_pnl_ytd, get_pnl_mtd, get_pnl_qtd, get_pnl,
      get_total_holdings_for_fund, get_total_trades_for_fund, get_total_holdings,
      get_total_trades, get_best_performing_funds, get_worst_performing_funds,
      get_fund_performance_ranking, get_securities_for_fund,
      get_security_types_for_fund, get_trade_types_summary, get_trades_by_type,
      get_fund_market_value, get_custodians, get_counterparties,
      get_security_types, get_total_quantity_for_fund, if_fund, bind;
    cbv beta;
    repeat (progress (rewrite ?Hname, ?Hfunds,
      ?(holdings_fund_mask_plain _ _ _ Hhs Hshort Hport Hp),
      ?(trades_fund_mask_plain _ _ _ Hts Htport Hp),
      ?(holdings_for_fund_plain _ _ _ Hhs Hshort Hport Hp),
      ?run_holdings, ?run_trades, ?run_holdings_col, ?run_trades_col,
      ?(str_accessor_text _ _ Htype));
      unfold ret at 1; cbv beta iota).
  all: try (destruct (0 <? List.length (filter (holding_matches name) hs))%nat;
            unfold ret; cbv beta iota).
  all: try (repeat match goal with
                   | |- context [match ?x with _ => _ end] => destruct x
                   end;
            eexists; reflexivity).
  - destruct (returns_join_cells ", "
      (unique cell_eqb (map SecurityTypeName (filter (holding_matches name) hs))))
      as [joined Hjoined].
    { intros c Hc. apply (proj1 (In_unique _ cell_eqb_eq _ _)) in Hc.
      apply in_map_iff in Hc. destruct Hc as [r [<- Hr]].
      apply (proj2 Hwf). now apply filter_In in Hr. }
    destruct (unique cell_eqb _); cbv beta iota; [|rewrite Hjoined];
      eexists; reflexivity.
  - apply returns_answer_security_type_count;
      [apply security_types_text | repeat constructor].
Qed.


End Loaded.

(** *** Questions on empty tables *)

Lemma get_all_funds_empty : get_all_funds rt empty_bot = (Ok [], empty_bot).
Proof.
  unfold get_all_funds, holdings_col, trades_col, bind, holdings, trades, ret.
  cbn. now rewrite set_iter_nil.
Qed.

Lemma extract_fund_name_empty q : extract_fund_name rt q empty_bot = (Ok None, empty_bot).
Proof. unfold extract_fund_name, bind. now rewrite get_all_funds_empty. Qed.

Lemma answer_security_type_count_empty sec_types question_lower :
  Forall (fun t => re_plain (lower t) = true) sec_types ->
  answer_security_type_count rt sec_types question_lower empty_bot
  = (Ok sentinel, empty_bot).
Proof.
  induction 1 as [|sec_type rest Hp _ IH]; simpl; [reflexivity|].
  destruct (str_in (lower sec_type) question_lower); [|exact IH].
  unfold bind.
  rewrite (run_get_holdings_by_security_type empty_bot [] eq_refl _ eq_refl Hp).
  exact IH.
Qed.

Lemma answer_empty i q : answer rt i q empty_bot = (Ok (empty_answer i), empty_bot).
Proof.
  destruct i; cbn [answer empty_answer]; try reflexivity;
    try (apply answer_security_type_count_empty; repeat constructor);
    unfold answer_list_funds, answer_total_holdings, answer_total_trades,
      answer_ranking, answer_pnl, answer_securities, answer_security_types,
      answer_trade_types, answer_trades_by_type, answer_market_value,
      answer_custodians, answer_counterparties, answer_quantity, bind;
    rewrite ?extract_fund_name_empty, ?get_all_funds_empty; cbn [if_fund];
    try reflexivity;
    unfold get_fund_pnl_ytd, get_pnl_mtd, get_pnl_qtd, get_pnl, if_fund,
      get_best_performing_funds, get_worst_performing_funds,
      get_fund_performance_ranking, get_trade_types_summary, get_custodians,
      get_security_types, get_counterparties, bind;
    cbn; rewrite ?np_sort_nil, ?set_iter_nil, ?(col_sum_empty _ rt_laws); reflexivity.
Qed.


End Answers.

(* ================================================================= *)
(** ** The reference runtime and the methods on concrete tables *)

Lemma ref_runtime_laws : PyRuntimeLaws ref_runtime.
Proof.
  constructor; simpl.
  - intros l. apply (NoDup_unique _ String.eqb_eq).
  - intros l x. apply (In_unique _ String.eqb_eq).
  - intros p Hp. rewrite Hp. exists (str_in p). split; reflexivity.
  - intros A key asc l. apply sorted_by_perm.
  - reflexivity.
Qed.

Lemma demo_tables_well_formed : well_formed_tables demo_holdings demo_trades.
Proof.
  split; [|split; [|split]].
  - intros f [H | [H | H]]; simpl in H;
      repeat (destruct H as [H | H]; [injection H as <-; reflexivity|]);
      contradiction.
  - intros r H; simpl in H.
    repeat (destruct H as [<- | H]; [discriminate|]). contradiction.
  - repeat split; reflexivity.
  - reflexivity.
Qed.

Example lower_ex : lower "How Many BUY trades?" = "how many buy trades?".
Proof. reflexivity. Qed.

Example strip_ex : strip ("  a b " ++ nl) = "a b".
Proof. reflexivity. Qed.

Example split_ex : split " mnc  inv 1 " = ["mnc"; "inv"; "1"].
Proof. reflexivity. Qed.

Example dollars_ex : dollars (-(12345 # 10)) = "$-1,234.50".
Proof. vm_compute. reflexivity. Qed.

Example dollars_tie_ex : dollars (125 # 1000) = "$0.12".
Proof. vm_compute. reflexivity. Qed.

Example format_fixed_ex : format_fixed 0 (2500 # 1) = "2,500".
Proof. vm_compute. reflexivity. Qed.

Example sorted_ex : sorted ["Beta"; "alpha"; "Alpha"] = ["Alpha"; "Beta"; "alpha"].
Proof. reflexivity. Qed.

Example number_of_buys_ex :
  fst (process_question ref_runtime "Number of buy orders" demo_bot)
  = Ok "Total number of Buy trades: 5".
Proof. vm_compute. reflexivity. Qed.

Example best_performing_ex :
  fst (process_question ref_runtime "Best performing funds" demo_bot)
  = Ok ("Best performing funds by YTD P&L:" ++ nl
        ++ "  1. Beta: $1,234,567.89" ++ nl
        ++ "  2. Alpha: $250.00" ++ nl
        ++ "  3. Alpha Plus: $-5.00" ++ nl).
Proof. vm_compute. reflexivity. Qed.

Example securities_ex :
  fst (process_question ref_runtime "What securities does Beta hold?" demo_bot)
  = Ok ("Securities held by Beta:" ++ nl ++ "  - UST 10Y" ++ nl ++ "  - nan").
Proof. vm_compute. reflexivity. Qed.

(** A missing security type among the selected holdings makes the
    fund-scoped security-types rule raise. *)
Example security_types_nan_ex :
  fst (process_question ref_runtime "Security types for Alpha"
         {| holdings_df :=
              Some [ {| ShortName := Some "Alpha"; PortfolioName := Some "HoldCo 1";
                        SecName := None; SecurityTypeName := None;
                        CustodianName := None; Qty := None; MV_Base := None;
                        PL_QTD := None; PL_MTD := None; PL_YTD := None |} ];
            trades_df := Some [] |})
  = Raise TypeError.
Proof. vm_compute. reflexivity. Qed.

(** A portfolio name missing in every row makes the column a float column,
    which cannot be searched. *)
Example portfolio_all_nan_ex :
  fst (process_question ref_runtime "Market value for Alpha"
         {| holdings_df :=
              Some [ {| ShortName := Some "Alpha"; PortfolioName := None;
                        SecName := None; SecurityTypeName := Some "Equity";
                        CustodianName := None; Qty := None; MV_Base := Some 1;
                        PL_QTD := None; PL_MTD := None; PL_YTD := None |} ];
            trades_df := Some [] |})
  = Raise AttributeError.
Proof. vm_compute. reflexivity. Qed.

(** With a table that was not loaded, a rule that reads it raises. *)
Example unloaded_raises_ex :
  forall rt : PyRuntime,
    fst (process_question rt "MTD for all" unloaded_bot) = Raise TypeError /\
    fst (process_question rt "Best performing funds" unloaded_bot) = Raise AttributeError /\
    fst (process_question rt "help" unloaded_bot) = Ok help_text.
Proof. intros rt. repeat split; reflexivity. Qed.

(* ================================================================= *)
(** ** The same properties on concrete input *)



(** C2 as stated fails: a question with "total", "trades" and "profit" that
    also says "all funds" is answered by the list-funds rule. *)
Lemma total_trades_not_first_rule :
  let q := "Total trades and profit for all funds" in
  let question_lower := strip (lower q) in
  str_in "total" question_lower = true /\
  str_in "trades" question_lower = true /\
  asks_ytd question_lower = true /\
  classify question_lower = ListFunds /\
  fst (process_question ref_runtime q demo_bot)
  = Ok ("Available funds/portfolios:" ++ nl
        ++ "  - Alpha" ++ nl ++ "  - Alpha Plus" ++ nl ++ "  - Beta" ++ nl
        ++ "  - Gamma" ++ nl ++ "  - HoldCo 1" ++ nl ++ "  - HoldCo 2") /\
  fst (process_question ref_runtime q demo_bot)
  <> fst (answer_total_trades ref_runtime q demo_bot).
Proof.
  cbv zeta. repeat split; try (vm_compute; reflexivity).
  vm_compute. discriminate.
Qed.

Lemma total_trades_outranks_pnl_witness :
  let q := "Total trades and profit this year" in
  classify (strip (lower q)) = TotalTrades /\
  process_question ref_runtime q demo_bot = answer_total_trades ref_runtime q demo_bot /\
  forall s, fst (process_question ref_runtime q demo_bot) = Ok s ->
            prefix "YTD P&L" s = false.
Proof.
  exact (total_trades_outranks_pnl ref_runtime "Total trades and profit this year"
           demo_bot eq_refl eq_refl eq_refl eq_refl eq_refl).
Defined.

Lemma how_many_buy_trades_counts_all_witness :
  fst (get_trades_by_type "buy" demo_bot) = Ok 5%nat /\
  classify (strip (lower "How many buy trades?")) = TotalTrades /\
  fst (process_question ref_runtime "How many buy trades?" demo_bot)
  = Ok "Total number of trades across all funds: 7".
Proof.
  split; [vm_compute; reflexivity|].
  exact (how_many_buy_trades_counts_all ref_runtime demo_bot demo_trades
           eq_refl eq_refl).
Defined.

Lemma no_rows_gives_fund_sentinel_witness :
  fst (extract_fund_name ref_runtime "Total holdings for Gamma" demo_bot)
  = Ok (Some "Gamma") /\
  fst (process_question ref_runtime "Total holdings for Gamma" demo_bot)
  = Ok "Sorry can not find the answer for fund 'Gamma'" /\
  fund_sentinel "Gamma" <> sentinel.
Proof.
  split; [vm_compute; reflexivity|].
  apply (no_rows_gives_fund_sentinel ref_runtime "Total holdings for Gamma" demo_bot
           "Gamma" [false; false; false; false]).
  - vm_compute; reflexivity.
  - vm_compute; reflexivity.
  - discriminate.
  - vm_compute; reflexivity.
  - reflexivity.
Defined.


(** The holdings of Beta have the P&L read from the texts 1234567 and
    0.891; their float64 sum is the float64 nearest to 1234567.891. *)
Lemma ytd_sum_rendering_witness :
  col_sum ref_runtime (map PL_YTD (filter (holding_matches "Beta") demo_holdings))
  = binary64 (1234567891 # 1000) /\
  fst (process_question ref_runtime "YTD P&L for Beta" demo_bot)
  = Ok "YTD P&L for Beta: $1,234,567.89".
Proof.
  split; [vm_compute; reflexivity|].
  apply (ytd_sum_rendering ref_runtime "YTD P&L for Beta" demo_bot "Beta"
           (filter (holding_matches "Beta") demo_holdings)).
  - vm_compute; reflexivity.
  - vm_compute; reflexivity.
  - discriminate.
  - vm_compute; reflexivity.
  - vm_compute; discriminate.
  - vm_compute; reflexivity.
  - vm_compute; reflexivity.
Defined.

(** C9 as stated fails: the fund name is searched for as a regular
    expression, not as a text.  The dot of "A.B" stands for any character,
    so the holdings counted for "A.B" are two, that of "AxB" with it, whose
    names do not contain "a.b".  The parenthesis of "Fund (A" is not closed:
    the name is contained in "Big Fund (A", and the count for it is not
    made, [re.error] is raised. *)
Lemma fund_name_searched_as_pattern :
  fst (extract_fund_name ref_runtime "Total holdings for A.B" pattern_bot)
  = Ok (Some "A.B") /\
  fst (process_question ref_runtime "Total holdings for A.B" pattern_bot)
  = Ok "Total number of holdings for A.B: 2" /\
  filter (holding_matches "A.B") pattern_holdings
  = [holding "A.B" "HoldCo 1" (Some "AAPL") "Equity" 100 1000 250] /\
  fst (extract_fund_name ref_runtime "Total holdings for Fund (A" pattern_bot)
  = Ok (Some "Fund (A") /\
  str_in "Fund (A" "Big Fund (A" = true /\
  fst (get_total_holdings_for_fund ref_runtime "Fund (A" pattern_bot) = Raise ReError /\
  fst (process_question ref_runtime "Total holdings for Fund (A" pattern_bot)
  = Raise ReError.
Proof. repeat split; vm_compute; reflexivity. Qed.

Lemma fund_filter_is_containment_witness :
  aggregates_over_matching_rows ref_runtime demo_bot demo_holdings demo_trades "Alpha" /\
  fst (get_total_holdings_for_fund ref_runtime "Alpha" demo_bot) = Ok (Some 2%nat) /\
  fst (get_total_holdings_for_fund ref_runtime "Alpha Plus" demo_bot) = Ok (Some 1%nat) /\
  incl (filter (holding_matches "Alpha Plus") demo_holdings)
       (filter (holding_matches "Alpha") demo_holdings).
Proof.
  pose proof (fund_filter_is_containment ref_runtime ref_runtime_laws demo_bot
                demo_holdings demo_trades "Alpha" "Alpha Plus" eq_refl eq_refl) as H.
  destruct H as [Ha [_ [Hincl _]]];
    try discriminate; try (vm_compute; reflexivity);
    try (repeat split; reflexivity).
  split; [exact Ha|].
  split; [vm_compute; reflexivity|].
  split; [vm_compute; reflexivity|].
  exact Hincl.
Defined.

Lemma case_insensitive_witness :
  lower "YTD P&L for BETA" = lower "ytd p&l for Beta" /\
  process_question ref_runtime "YTD P&L for BETA" demo_bot
  = process_question ref_runtime "ytd p&l for Beta" demo_bot.
Proof.
  split; [reflexivity|].
  apply case_insensitive. reflexivity.
Defined.

(* ================================================================= *)
(** ** More on the methods *)

(** *** [extract_fund_name] *)

Section Extraction.

Variable rt : PyRuntime.
Hypothesis rt_laws : PyRuntimeLaws rt.

Variables (self : DataChatbot) (hs : list HoldingRecord) (ts : list TradeRecord).
Hypothesis Hhs : holdings_df self = Some hs.
Hypothesis Hts : trades_df self = Some ts.

Lemma extract_fund_name_run q :
  exists funds,
    (forall f, In f funds <-> fund_identifier hs ts f) /\
    extract_fund_name rt q self
    = (Ok (match find (names_fund q) funds with
           | Some fund => Some fund
           | None => find (names_word_of q) funds
           end), self).
Proof.
  destruct (get_all_funds_loaded rt rt_laws self hs ts Hhs Hts) as [funds [Hrun [_ Hin]]].
  exists funds. split; [exact Hin|].
  unfold extract_fund_name, bind. rewrite Hrun.
  fold (names_fund q). destruct (find (names_fund q) funds); reflexivity.
Qed.

(** X1. A fund that [extract_fund_name] returns is a fund identifier of the
    tables, and the question names it: in full, or by one of its words of
    more than three characters. *)
Theorem extract_fund_name_sound (q f : string) :
  fst (extract_fund_name rt q self) = Ok (Some f) ->
  fund_identifier hs ts f /\ (names_fund q f = true \/ names_word_of q f = true).
Proof.
  destruct (extract_fund_name_run q) as [funds [Hin ->]]. simpl.
  destruct (find (names_fund q) funds) as [fund|] eqn:E1.
  - intros [= <-]. destruct (find_some _ _ E1) as [H1 H2].
    split; [now apply Hin | now left].
  - intros [= E2]. destruct (find_some _ _ E2) as [H1 H2].
    split; [now apply Hin | now right].
Qed.

(** X2. When the question holds the full name of some fund identifier, a
    fund is returned whose full name the question holds: a match on a word
    never takes the place of a match on a full name. *)
Theorem extract_fund_name_prefers_full_name (q f : string) :
  fund_identifier hs ts f -> names_fund q f = true ->
  exists f', fst (extract_fund_name rt q self) = Ok (Some f') /\
             fund_identifier hs ts f' /\ names_fund q f' = true.
Proof.
  intros Hf Hq. destruct (extract_fund_name_run q) as [funds [Hin ->]]. simpl.
  destruct (find (names_fund q) funds) as [fund|] eqn:E1.
  - exists fund. destruct (find_some _ _ E1) as [H1 H2].
    split; [reflexivity | split; [now apply Hin | exact H2]].
  - exfalso. apply Hin in Hf.
    pose proof (find_none _ _ E1 f Hf) as H. congruence.
Qed.

(** X3. No fund is returned exactly when the question names no fund
    identifier of the tables, neither in full nor by a long word. *)
Theorem extract_fund_name_none_iff (q : string) :
  fst (extract_fund_name rt q self) = Ok None <->
  forall f, fund_identifier hs ts f ->
            names_fund q f = false /\ names_word_of q f = false.
Proof.
  destruct (extract_fund_name_run q) as [funds [Hin ->]]. simpl. split.
  - destruct (find (names_fund q) funds) as [fund|] eqn:E1; [discriminate|].
    intros [= E2] f Hf. apply Hin in Hf.
    split; [exact (find_none _ _ E1 f Hf) | exact (find_none _ _ E2 f Hf)].
  - intros H.
    destruct (find (names_fund q) funds) as [fund|] eqn:E1.
    + destruct (find_some _ _ E1) as [H1 H2].
      destruct (H fund (proj1 (Hin fund) H1)) as [H3 _]. congruence.
    + destruct (find (names_word_of q) funds) as [fund|] eqn:E2; [|reflexivity].
      destruct (find_some _ _ E2) as [H1 H2].
      destruct (H fund (proj1 (Hin fund) H1)) as [_ H3]. congruence.
Qed.

End Extraction.

(** *** Nothing loaded *)

Section Unloaded.

Variable rt : PyRuntime.

Lemma classify_security_type_count question_lower :
  classify question_lower = SecurityTypeCount ->
  asks_security_type_count question_lower = true.
Proof.
  unfold classify.
  repeat match goal with
         | |- context [if ?b then _ else _] => destruct b eqn:?; try discriminate
         end.
  reflexivity.
Qed.

Lemma security_type_count_unloaded question_lower :
  asks_security_type_count question_lower = true ->
  fst (answer_security_type_count rt
         ["Equity"; "Bond"; "Option"; "AssetBacked"; "FX Forward"]
         question_lower unloaded_bot)
  = Raise TypeError.
Proof.
  unfold asks_security_type_count, any_in.
  change (map lower ["equity"; "bond"; "option"; "assetbacked"; "fx forward"])
    with ["equity"; "bond"; "option"; "assetbacked"; "fx forward"].
  cbn [existsb answer_security_type_count].
  change (lower "Equity") with "equity". change (lower "Bond") with "bond".
  change (lower "Option") with "option".
  change (lower "AssetBacked") with "assetbacked".
  change (lower "FX Forward") with "fx forward".
  destruct (str_in "equity" question_lower); [reflexivity|].
  destruct (str_in "bond" question_lower); [reflexivity|].
  destruct (str_in "option" question_lower); [reflexivity|].
  destruct (str_in "assetbacked" question_lower); [reflexivity|].
  destruct (str_in "fx forward" question_lower); [reflexivity|].
  discriminate.
Qed.

(** X4. With neither table loaded, a question is answered only when no rule
    matches it or the rule is the help or the empty-question rule; the three
    ranking rules raise [AttributeError] and every other rule raises
    [TypeError]. *)
Theorem unloaded_answers (q : string) :
  fst (process_question rt q unloaded_bot)
  = unloaded_answer (classify (strip (lower q))).
Proof.
  rewrite process_question_answer.
  destruct (classify (strip (lower q))) eqn:E; cbn [answer unloaded_answer];
    try reflexivity.
  now apply security_type_count_unloaded, classify_security_type_count.
Qed.

End Unloaded.

(** *** Counts and lists for one fund *)

Section FundQueries.

Variable rt : PyRuntime.

Lemma str_contains_length col pat self mask self' :
  str_contains rt col pat self = (Ok mask, self') ->
  List.length mask = List.length col.
Proof.
  unfold str_contains. destruct (re_compile rt pat); [|discriminate].
  intros [= <- _]. apply length_map.
Qed.

Lemma str_accessor_ok col self col' self' :
  str_accessor col self = (Ok col', self') -> col' = col.
Proof. unfold str_accessor. destruct (is_text col); [|discriminate]. now intros [= <- _]. Qed.

Lemma mask_sum_le (mask : list bool) : (mask_sum mask <= List.length mask)%nat.
Proof.
  unfold mask_sum. induction mask as [|[] mask IH]; simpl; lia.
Qed.

Lemma mask_or_length (m1 m2 : list bool) :
  (List.length (mask_or m1 m2) <= List.length m1)%nat.
Proof. unfold mask_or. rewrite length_map, length_combine. lia. Qed.

(** X5. The number of holdings, or of trades, found for a fund is never
    reported as 0, which is [None] instead, and never exceeds the number of
    rows of the table. *)
Theorem fund_counts_bounded (self : DataChatbot) (name : string) (c : nat) :
  (forall hs, holdings_df self = Some hs ->
     fst (get_total_holdings_for_fund rt name self) = Ok (Some c) ->
     (0 < c <= List.length hs)%nat) /\
  (forall ts, trades_df self = Some ts ->
     fst (get_total_trades_for_fund rt name self) = Ok (Some c) ->
     (0 < c <= List.length ts)%nat).
Proof.
  split.
  - intros hs Hhs.
    unfold get_total_holdings_for_fund, holdings_fund_mask, holdings_col, bind,
      holdings.
    rewrite Hhs. cbv beta iota. unfold ret at 1. cbv beta iota.
    destruct (str_accessor (map ShortName hs) self) as [[short|e] s1] eqn:E1;
      [|discriminate].
    apply str_accessor_ok in E1. subst short.
    destruct (str_contains rt _ _ s1) as [[m1|e] s2] eqn:E2; [|discriminate].
    apply str_contains_length in E2.
    destruct (holdings_df s2); [|discriminate]. unfold ret at 1. cbv beta iota.
    destruct (str_accessor _ s2) as [[port|e] s3]; [|discriminate].
    destruct (str_contains rt _ _ s3) as [[m2|e] s4]; [|discriminate].
    unfold ret. cbv beta iota. simpl.
    pose proof (mask_sum_le (mask_or m1 m2)) as H1.
    pose proof (mask_or_length m1 m2) as H2.
    unfold str_lower in E2. rewrite !length_map in E2.
    destruct (0 <? mask_sum (mask_or m1 m2))%nat eqn:E; intros [= <-].
    apply Nat.ltb_lt in E. lia.
  - intros ts Hts.
    unfold get_total_trades_for_fund, trades_fund_mask, trades_col, bind, trades.
    rewrite Hts. cbv beta iota. unfold ret at 1. cbv beta iota.
    destruct (str_accessor (map TradePortfolioName ts) self) as [[port|e] s1] eqn:E1;
      [|discriminate].
    apply str_accessor_ok in E1. subst port.
    destruct (str_contains rt _ _ s1) as [[m|e] s2] eqn:E2; [|discriminate].
    apply str_contains_length in E2.
    unfold ret. cbv beta iota. simpl.
    pose proof (mask_sum_le m) as H1.
    unfold str_lower in E2. rewrite !length_map in E2.
    destruct (0 <? mask_sum m)%nat eqn:E; intros [= <-].
    apply Nat.ltb_lt in E. lia.
Qed.

(** X6. The securities found for a fund are the security names of the
    selected holdings, each listed once (NaN counting as one name), and the
    list is [None], not empty, when no holding is selected. *)
Theorem securities_listed_once (self : DataChatbot) (name : string)
    (rows : list HoldingRecord) :
  fst (holdings_for_fund rt name self) = Ok rows ->
  (rows = [] -> fst (get_securities_for_fund rt name self) = Ok None) /\
  (rows <> [] ->
   exists secs,
     fst (get_securities_for_fund rt name self) = Ok (Some secs) /\
     secs <> [] /\ NoDup secs /\
     forall c, In c secs <-> In c (map SecName rows)).
Proof.
  intros Hrows. unfold get_securities_for_fund, bind.
  rewrite (run_holdings_for_fund rt _ _ _ Hrows). split.
  - intros ->. reflexivity.
  - intros Hne. rewrite (length_pos _ _ Hne).
    exists (unique cell_eqb (map SecName rows)).
    split; [reflexivity|]. split; [|split].
    + destruct rows; [congruence | discriminate].
    + apply (NoDup_unique _ cell_eqb_eq).
    + intros c. apply (In_unique _ cell_eqb_eq).
Qed.

End FundQueries.

(** *** Holdings by security type *)

Section SecurityTypeCounts.

Variable rt : PyRuntime.
Hypothesis rt_laws : PyRuntimeLaws rt.

Variables (self : DataChatbot) (hs : list HoldingRecord).
Hypothesis Hhs : holdings_df self = Some hs.
Hypothesis Htext : is_text (map SecurityTypeName hs) = true.

Lemma answer_security_type_count_run sec_types question_lower :
  Forall (fun t => re_plain (lower t) = true) sec_types ->
  answer_security_type_count rt sec_types question_lower self
  = (Ok (match find (fun t => str_in (lower t) question_lower
                              && (0 <? holdings_of_type t hs)%nat) sec_types with
         | Some t => "Number of " ++ t ++ " holdings: "
                     ++ str_of_nat (holdings_of_type t hs)
         | None => sentinel
         end), self).
Proof.
  induction 1 as [|sec_type rest Hp _ IH]; [reflexivity|].
  cbn [answer_security_type_count find].
  destruct (str_in (lower sec_type) question_lower); [|exact IH].
  unfold bind.
  rewrite (run_get_holdings_by_security_type rt rt_laws self hs Hhs _ Htext Hp).
  fold (holdings_of_type sec_type hs). cbn [andb].
  destruct (0 <? holdings_of_type sec_type hs)%nat; [reflexivity | exact IH].
Qed.

(** X7. When the security-type rule answers, it reports the first of
    Equity, Bond, Option, AssetBacked, FX Forward that the question mentions
    and that some holding's security type contains; a keyword without
    holdings is passed over, and with none left the answer is the
    sentinel. *)
Theorem security_type_first_hit (q : string) :
  classify (strip (lower q)) = SecurityTypeCount ->
  fst (process_question rt q self)
  = Ok (match find (fun t => str_in (lower t) (strip (lower q))
                             && (0 <? holdings_of_type t hs)%nat)
                   ["Equity"; "Bond"; "Option"; "AssetBacked"; "FX Forward"] with
        | Some t => "Number of " ++ t ++ " holdings: "
                    ++ str_of_nat (holdings_of_type t hs)
        | None => sentinel
        end).
Proof.
  intros Hc. rewrite process_question_answer, Hc. cbn [answer].
  rewrite answer_security_type_count_run; [reflexivity | repeat constructor].
Qed.

End SecurityTypeCounts.

(** *** Sums by fund and rankings *)

Section StringOrder.

Lemma ascii_compare_lt_trans (a b c : ascii) :
  Ascii.compare a b = Lt -> Ascii.compare b c = Lt -> Ascii.compare a c = Lt.
Proof.
  unfold Ascii.compare. rewrite !N.compare_lt_iff. apply N.lt_trans.
Qed.

Lemma string_leb_trans (a b c : string) :
  String.leb a b = true -> String.leb b c = true -> String.leb a c = true.
Proof.
  unfold String.leb. revert b c.
  induction a as [|a1 a IH]; intros [|b1 b] [|c1 c]; cbn [String.compare];
    try reflexivity; try discriminate.
  destruct (Ascii.compare a1 b1) eqn:Eab; [| |discriminate].
  - apply Ascii.compare_eq_iff in Eab. subst b1.
    destruct (Ascii.compare a1 c1); [apply IH | reflexivity | discriminate].
  - intros _. destruct (Ascii.compare b1 c1) eqn:Ebc; [| |discriminate]; intros _.
    + apply Ascii.compare_eq_iff in Ebc. subst c1. now rewrite Eab.
    + now rewrite (ascii_compare_lt_trans _ _ _ Eab Ebc).
Qed.

Lemma string_leb_ltb (a b : string) :
  String.leb a b = true -> a <> b -> String.ltb a b = true.
Proof.
  unfold String.leb, String.ltb. intros Hle Hne.
  destruct (String.compare a b) eqn:E; [|reflexivity|discriminate].
  now apply String.compare_eq_iff in E.
Qed.

Lemma ascending_strictly (s : list string) :
  NoDup s -> StronglySorted (fun a b => String.leb a b = true) s ->
  StronglySorted (fun a b => String.ltb a b = true) s.
Proof.
  intros Hnd Hsorted. induction Hsorted as [|a s _ IH Hall]; constructor.
  - apply IH. now inversion Hnd.
  - inversion Hnd as [|? ? Hnotin _]. subst.
    rewrite Forall_forall in Hall |- *. intros b Hb.
    apply string_leb_ltb; [now apply Hall|].
    intros ->. contradiction.
Qed.

(** Distinct strings, once sorted, ascend strictly. *)
Lemma sorted_ascending (l : list string) :
  NoDup l -> StronglySorted (fun a b => String.ltb a b = true) (sorted l).
Proof.
  intros Hnd. destruct (sorted_spec l) as [Hperm Hsorted].
  apply ascending_strictly.
  - apply (Permutation_NoDup (l := l)); [now symmetry | exact Hnd].
  - apply Sorted_StronglySorted; [|exact Hsorted].
    intros a b c. apply string_leb_trans.
Qed.

End StringOrder.

Section Groups.

Local Open Scope Q_scope.

Variable rt : PyRuntime.

Context {R : Type} (key : R -> option string) (val : R -> option Q).

Lemma groupby_sum_keys (df : list R) :
  map fst (groupby_sum rt key val df) = sorted (dropna_unique (map key df)).
Proof. unfold groupby_sum. rewrite map_map. apply map_id. Qed.

Lemma groupby_sum_NoDup (df : list R) : NoDup (map fst (groupby_sum rt key val df)).
Proof.
  rewrite groupby_sum_keys.
  apply (Permutation_NoDup (l := dropna_unique (map key df))).
  - symmetry. apply sorted_spec.
  - apply (NoDup_unique _ String.eqb_eq).
Qed.

Lemma groupby_sum_In (df : list R) (k : string) :
  In k (map fst (groupby_sum rt key val df)) <-> In (Some k) (map key df).
Proof.
  rewrite groupby_sum_keys, <- In_dropna_unique.
  split; apply Permutation_in; [apply sorted_spec | symmetry; apply sorted_spec].
Qed.

(** The amount of a fund is the sum of its group: of the cells of its own
    rows, in the order of the table. *)
Lemma groupby_sum_entry (df : list R) (k : string) (v : Q) :
  In (k, v) (groupby_sum rt key val df) -> v = group_sum rt (group_cells key val df k).
Proof.
  unfold groupby_sum. rewrite in_map_iff. intros [k' [[= <- <-] _]]. reflexivity.
Qed.

Lemma groupby_sum_ascending (df : list R) :
  StronglySorted (fun a b => String.ltb a b = true) (map fst (groupby_sum rt key val df)).
Proof.
  rewrite groupby_sum_keys. apply sorted_ascending, (NoDup_unique _ String.eqb_eq).
Qed.

End Groups.

Section ShownOrder.

Local Open Scope Q_scope.

Lemma sorted_pnl_cons (x : string * Q) (d : list (string * Q)) :
  sorted_pnl (x :: d) = insert (fun x y => Qle_bool (snd y) (snd x)) x (sorted_pnl d).
Proof. reflexivity. Qed.

Lemma insert_shown_before (x : string * Q) (l : list (string * Q)) :
  Sorted shown_before l ->
  (forall y, In y l -> String.ltb (fst x) (fst y) = true) ->
  Sorted shown_before (insert (fun x y => Qle_bool (snd y) (snd x)) x l).
Proof.
  induction l as [|y l IH]; intros Hsorted Hlt; cbn [insert].
  - repeat constructor.
  - destruct (Qle_bool (snd y) (snd x)) eqn:Ele.
    + constructor; [exact Hsorted|]. constructor.
      apply Qle_bool_iff, Qle_lteq in Ele. destruct Ele as [Hlt' | Heq].
      * now left.
      * right. split; [now symmetry | apply Hlt; now left].
    + assert (Hxy : snd x < snd y).
      { apply Qnot_le_lt. intros Hle. apply Qle_bool_iff in Hle. congruence. }
      inversion Hsorted as [|? ? Hsorted' Hhd]; subst.
      constructor.
      * apply IH; [exact Hsorted'|]. intros z Hz. apply Hlt. now right.
      * destruct l as [|z l']; cbn [insert].
        -- constructor. now left.
        -- inversion Hhd; subst.
           destruct (Qle_bool (snd z) (snd x)); constructor; [now left | assumption].
Qed.

(** Python's stable sort of the entries of the dict, whose keys ascend:
    larger amounts first, equal amounts in the order of the names. *)
Lemma sorted_pnl_shown_before (d : list (string * Q)) :
  StronglySorted (fun a b => String.ltb a b = true) (map fst d) ->
  Sorted shown_before (sorted_pnl d).
Proof.
  induction d as [|x d IH]; intros Hkeys; [constructor|].
  cbn [map] in Hkeys. inversion Hkeys as [|? ? Hkeys' Hall]; subst.
  rewrite sorted_pnl_cons. apply insert_shown_before; [now apply IH|].
  intros y Hy. rewrite Forall_forall in Hall. apply Hall, in_map.
  exact (Permutation_in _ (sorted_by_perm _ d) Hy).
Qed.

End ShownOrder.

Section Rankings.

Local Open Scope Q_scope.

Variable rt : PyRuntime.

Lemma firstn_In A (n : nat) (l : list A) (x : A) : In x (firstn n l) -> In x l.
Proof.
  intros H. rewrite <- (firstn_skipn n l). apply in_or_app. now left.
Qed.


Hypothesis rt_laws : PyRuntimeLaws rt.

(** X9. The performance ranking lists every short name of the holdings
    once, each with the sum pandas computes of the YTD P&L of the holdings
    that have this very short name, in whatever order the sort leaves equal
    amounts; a fund known only by a portfolio name is not in it. *)
Theorem ranking_lists_each_fund_once (self : DataChatbot) (hs : list HoldingRecord) :
  holdings_df self = Some hs ->
  exists ranking,
    fst (get_fund_performance_ranking rt self) = Ok ranking /\
    NoDup (map fst ranking) /\
    (forall k, In k (map fst ranking) <-> In (Some k) (map ShortName hs)) /\
    (forall k v, In (k, v) ranking ->
                 v = group_sum rt (group_cells ShortName PL_YTD hs k)).
Proof.
  intros Hhs.
  pose proof (np_sort_perm rt rt_laws _ snd false (groupby_sum rt ShortName PL_YTD hs))
    as Hperm.
  exists (np_sort rt _ snd false (groupby_sum rt ShortName PL_YTD hs)).
  split; [|split; [|split]].
  - unfold get_fund_performance_ranking, bind, holdings. now rewrite Hhs.
  - apply (Permutation_NoDup (l := map fst (groupby_sum rt ShortName PL_YTD hs))).
    + symmetry. now apply Permutation_map.
    + apply groupby_sum_NoDup.
  - intros k. rewrite <- (groupby_sum_In rt ShortName PL_YTD hs k).
    split; apply Permutation_in; apply Permutation_map;
      [exact Hperm | symmetry; exact Hperm].
  - intros k v Hin. apply groupby_sum_entry.
    exact (Permutation_in _ Hperm Hin).
Qed.

(** X10. The best and the worst funds are at most [n] entries of the
    ranking each; when the holdings have no more than [n] short names, the
    two lists hold the same funds. *)
Theorem best_and_worst_same_funds (self : DataChatbot) (hs : list HoldingRecord)
    (n : nat) :
  holdings_df self = Some hs ->
  exists best worst,
    fst (get_best_performing_funds rt n self) = Ok best /\
    fst (get_worst_performing_funds rt n self) = Ok worst /\
    (List.length best <= n)%nat /\ (List.length worst <= n)%nat /\
    incl best (groupby_sum rt ShortName PL_YTD hs) /\
    incl worst (groupby_sum rt ShortName PL_YTD hs) /\
    ((List.length (dropna_unique (map ShortName hs)) <= n)%nat ->
     Permutation best worst).
Proof.
  intros Hhs.
  set (groups := groupby_sum rt ShortName PL_YTD hs).
  pose proof (np_sort_perm rt rt_laws _ snd false groups) as Hbest.
  pose proof (np_sort_perm rt rt_laws _ snd true groups) as Hworst.
  exists (firstn n (np_sort rt _ snd false groups)),
         (firstn n (np_sort rt _ snd true groups)).
  split; [|split; [|split; [|split; [|split; [|split]]]]].
  - unfold get_best_performing_funds, bind, holdings. now rewrite Hhs.
  - unfold get_worst_performing_funds, bind, holdings. now rewrite Hhs.
  - apply firstn_le_length.
  - apply firstn_le_length.
  - intros e He. apply (Permutation_in _ Hbest). exact (firstn_In _ _ _ _ He).
  - intros e He. apply (Permutation_in _ Hworst). exact (firstn_In _ _ _ _ He).
  - intros Hn.
    assert (Hlen : List.length groups = List.length (dropna_unique (map ShortName hs))).
    { unfold groups. rewrite <- (length_map fst), groupby_sum_keys.
      apply Permutation_length, sorted_spec. }
    rewrite !firstn_all2.
    + now rewrite Hbest, Hworst.
    + rewrite (Permutation_length Hworst). lia.
    + rewrite (Permutation_length Hbest). lia.
Qed.

End Rankings.

(** *** Trades by type *)

Section TradeTypes.

Local Open Scope nat_scope.

Variable rt : PyRuntime.
Hypothesis rt_laws : PyRuntimeLaws rt.

Lemma list_sum_bump (g : string -> nat) (k0 : string) (K : list string) :
  NoDup K -> In k0 K ->
  list_sum (map (fun k => (if String.eqb k0 k then 1 else 0) + g k) K)
  = S (list_sum (map g K)).
Proof.
  induction 1 as [|k K Hk HK IH]; intros Hin; [contradiction|].
  cbn [map list_sum fold_right]. fold (list_sum (map g K)).
  fold (list_sum (map (fun k => (if String.eqb k0 k then 1 else 0) + g k) K)).
  destruct Hin as [-> | Hin].
  - rewrite String.eqb_refl.
    replace (list_sum (map (fun k => (if String.eqb k0 k then 1 else 0) + g k) K))
      with (list_sum (map g K)); [lia|].
    f_equal. apply map_ext_in. intros k' Hk'.
    destruct (String.eqb_spec k0 k') as [->|_]; [contradiction | reflexivity].
  - destruct (String.eqb_spec k0 k) as [->|_]; [contradiction|].
    rewrite (IH Hin). lia.
Qed.

Lemma typed_counts_add_up (K : list string) (ts : list TradeRecord) :
  NoDup K -> (forall k, In (Some k) (map TradeTypeName ts) -> In k K) ->
  list_sum (map (fun k => trades_typed k ts) K)
  = List.length (dropna (map TradeTypeName ts)).
Proof.
  intros HK. induction ts as [|r ts IH]; intros Hkeys.
  - cbn. induction K as [|k K IHK]; [reflexivity|].
    inversion HK; subst. cbn. now apply IHK.
  - assert (Hkeys' : forall k, In (Some k) (map TradeTypeName ts) -> In k K)
      by (intros k Hk; apply Hkeys; now right).
    specialize (IH Hkeys'). unfold trades_typed in *. cbn [map filter dropna].
    destruct (TradeTypeName r) as [k0|] eqn:E.
    + cbn [cell_eqb List.length]. rewrite <- IH.
      rewrite <- (list_sum_bump _ k0 K HK (Hkeys k0 (or_introl E))).
      f_equal. apply map_ext. intros k. destruct (String.eqb k0 k); reflexivity.
    + cbn [cell_eqb]. exact IH.
Qed.

(** X11. The trade-types summary has one entry per trade type as it is
    written in the table (letter case kept apart, NaN left out), each with
    the number of trades of exactly that type, which is positive; the
    numbers add up to the number of trades that have a type. *)
Theorem trade_types_summary_counts (self : DataChatbot) (ts : list TradeRecord) :
  trades_df self = Some ts ->
  exists summary,
    fst (get_trade_types_summary rt self) = Ok summary /\
    NoDup (map fst summary) /\
    (forall k, In k (map fst summary) <-> In (Some k) (map TradeTypeName ts)) /\
    (forall k n, In (k, n) summary -> n = trades_typed k ts /\ (0 < n)%nat) /\
    list_sum (map snd summary) = List.length (dropna (map TradeTypeName ts)).
Proof.
  intros Hts.
  set (counts := map (fun k => (k, trades_typed k ts))
                     (dropna_unique (map TradeTypeName ts))).
  assert (Hrun : get_trade_types_summary rt self
                 = (Ok (np_sort rt _ (fun kc => inject_Z (Z.of_nat (snd kc))) false
                          counts), self)).
  { unfold get_trade_types_summary, bind.
    rewrite (run_trades_col self ts Hts). unfold ret. do 3 f_equal.
    unfold counts. apply map_ext. intros k. f_equal.
    unfold trades_typed. now rewrite map_map, mask_sum_map. }
  pose proof (np_sort_perm rt rt_laws _
                (fun kc : string * nat => inject_Z (Z.of_nat (snd kc))) false counts)
    as Hperm.
  assert (Hkeys : map fst counts = dropna_unique (map TradeTypeName ts))
    by (unfold counts; rewrite map_map; apply map_id).
  assert (Hnums : map snd counts
                  = map (fun k => trades_typed k ts)
                        (dropna_unique (map TradeTypeName ts)))
    by (unfold counts; now rewrite map_map).
  eexists. split; [rewrite Hrun; reflexivity|].
  split; [|split; [|split]].
  - apply (Permutation_NoDup (l := map fst counts)).
    + symmetry. now apply Permutation_map.
    + rewrite Hkeys. apply (NoDup_unique _ String.eqb_eq).
  - intros k. rewrite <- In_dropna_unique, <- Hkeys.
    split; apply Permutation_in; apply Permutation_map;
      [exact Hperm | symmetry; exact Hperm].
  - intros k n Hin. apply (Permutation_in _ Hperm) in Hin.
    unfold counts in Hin. apply in_map_iff in Hin.
    destruct Hin as [k' [[= <- <-] Hk']]. split; [reflexivity|].
    apply In_dropna_unique, in_map_iff in Hk'. destruct Hk' as [r [Hr1 Hr2]].
    unfold trades_typed.
    assert (Hf : In r (filter (fun r => cell_eqb (TradeTypeName r) (Some k')) ts)).
    { apply filter_In. split; [exact Hr2|]. rewrite Hr1. apply String.eqb_refl. }
    destruct (filter _ ts); [contradiction | simpl; lia].
  - rewrite (Permutation_map snd Hperm), Hnums.
    apply typed_counts_add_up.
    + apply (NoDup_unique _ String.eqb_eq).
    + intros k. apply In_dropna_unique.
Qed.

Lemma disjoint_filters A (p q : A -> bool) (l : list A) :
  (forall x, p x = true -> q x = false) ->
  (List.length (filter p l) + List.length (filter q l) <= List.length l)%nat.
Proof.
  intros H. induction l as [|x l IH]; simpl; [lia|].
  destruct (p x) eqn:E; [rewrite (H x E) | destruct (q x)]; simpl; lia.
Qed.

(** X12. The number of trades of a type counts the rows whose type is that
    word whatever its letter case; the buys and the sells together are no
    more than the trades. *)
Theorem buys_and_sells_bounded (self : DataChatbot) (ts : list TradeRecord)
    (trade_type : string) :
  trades_df self = Some ts -> is_text (map TradeTypeName ts) = true ->
  fst (get_trades_by_type trade_type self) = Ok (trades_of_type trade_type ts) /\
  (trades_of_type "buy" ts + trades_of_type "sell" ts <= List.length ts)%nat.
Proof.
  intros Hts Htext. split.
  - unfold get_trades_by_type, bind.
    rewrite (run_trades_col self ts Hts), (str_accessor_text _ _ Htext).
    unfold ret, str_lower_eq, trades_of_type. cbn [fst]. f_equal.
    now rewrite map_map, mask_sum_map.
  - unfold trades_of_type. apply disjoint_filters.
    intros r. destruct (TradeTypeName r) as [s|]; [|discriminate].
    change (lower "buy") with "buy". change (lower "sell") with "sell".
    destruct (String.eqb_spec (lower s) "buy") as [->|]; [reflexivity | discriminate].
Qed.

End TradeTypes.

(** *** How answers begin *)

Section Headers.

Variable rt : PyRuntime.

Ltac header :=
  cbn [existsb];
  first [ apply orb_true_iff; left; apply prefix_iff; eexists; reflexivity
        | apply orb_true_iff; right; header ].

Lemma get_holdings_by_security_type_readonly sec_type :
  readonly (get_holdings_by_security_type rt sec_type).
Proof.
  unfold get_holdings_by_security_type.
  apply readonly_bind; [apply readonly_holdings_col | intro].
  apply readonly_bind; [apply readonly_str_accessor | intro].
  apply readonly_bind; [apply readonly_str_contains | intro; apply readonly_ret].
Qed.

Lemma answer_security_type_count_header sec_types question_lower self s :
  fst (answer_security_type_count rt sec_types question_lower self) = Ok s ->
  existsb (fun h => prefix h s) ["Number of "; sentinel] = true.
Proof.
  induction sec_types as [|sec_type rest IH]; cbn [answer_security_type_count].
  - intros [= Hs]. rewrite <- Hs. header.
  - destruct (str_in (lower sec_type) question_lower); [|exact IH].
    unfold bind.
    rewrite (readonly_run _ _ self (get_holdings_by_security_type_readonly sec_type)).
    destruct (fst (get_holdings_by_security_type rt sec_type self)) as [count|e];
      [|discriminate].
    destruct (0 <? count)%nat; [|exact IH].
    intros [= Hs]. rewrite <- Hs. header.
Qed.

Lemma answer_begins_with_header (i : intent) (q : string) (self : DataChatbot)
    (s : string) :
  fst (answer rt i q self) = Ok s ->
  existsb (fun h => prefix h s) (answer_headers i) = true.
Proof.
  destruct i; cbn [answer answer_headers];
    try (intros [= <-]; header);
    try apply answer_security_type_count_header;
    unfold answer_list_funds, answer_total_holdings, answer_total_trades,
      answer_ranking, answer_pnl, answer_securities, answer_security_types,
      answer_trade_types, answer_trades_by_type, answer_market_value,
      answer_custodians, answer_counterparties, answer_quantity, bind;
    match goal with
    | |- context [extract_fund_name rt q self] =>
        rewrite (readonly_run _ (extract_fund_name rt q) self
                   (readonly_extract_fund_name rt q));
        destruct (fst (extract_fund_name rt q self)) as [[name|]|e];
        cbv beta iota; try discriminate; unfold if_fund;
        try destruct (is_empty name)
    | _ => idtac
    end.
  all: try (intros [= <-]; header).
  all: match goal with
       | |- context [let (_, _) := ?t in _] =>
           destruct t as [[a|e] self']; cbv beta iota; [|discriminate]
       end.
  all: repeat match goal with
              | |- context [match ?x with _ => _ end] => destruct x
              end;
    try discriminate; try (intros [= <-]; header).
Qed.

(** X13. Every answer [process_question] returns begins with one of the
    fixed headers of the rule that answers, or with the sentinel text. *)
Theorem answers_begin_with_header (q : string) (self : DataChatbot) (s : string) :
  fst (process_question rt q self) = Ok s ->
  existsb (fun h => prefix h s) (answer_headers (classify (strip (lower q)))) = true.
Proof.
  rewrite process_question_answer. apply answer_begins_with_header.
Qed.

Lemma prefix_first_char a p b p' s :
  prefix (String a p) s = true -> prefix (String b p') s = true -> a = b.
Proof.
  destruct s as [|c s]; [discriminate|]. simpl.
  destruct (ascii_dec a c); [|discriminate].
  destruct (ascii_dec b c); [|discriminate]. congruence.
Qed.

Lemma help_text_begins : exists rest, help_text = String "I" rest.
Proof. vm_compute. eexists. reflexivity. Qed.

Lemma classify_mtd_qtd question_lower :
  classify question_lower = Mtd \/ classify question_lower = Qtd ->
  asks_ytd question_lower = false.
Proof.
  unfold classify.
  repeat match goal with
         | |- context [if ?b then _ else _] =>
             destruct b eqn:?; try (intros [H | H]; discriminate H)
         end.
  all: try reflexivity; intros [H | H]; discriminate H.
Qed.

(** X14. An answer that begins with "MTD P&L" or "QTD P&L" was given by the
    MTD or the QTD rule, to a question with none of the nine YTD phrases in
    it: a question that says "p&l", "pnl", "profit" or "loss" never gets the
    month-to-date or quarter-to-date figures. *)
Theorem mtd_qtd_answers_have_no_ytd_phrase (q : string) (self : DataChatbot)
    (s : string) :
  fst (process_question rt q self) = Ok s ->
  prefix "MTD P&L" s = true \/ prefix "QTD P&L" s = true ->
  (classify (strip (lower q)) = Mtd \/ classify (strip (lower q)) = Qtd) /\
  asks_ytd (strip (lower q)) = false.
Proof.
  intros Hs Hlabel. rewrite process_question_answer in Hs.
  apply answer_begins_with_header in Hs.
  assert (Hc : classify (strip (lower q)) = Mtd \/ classify (strip (lower q)) = Qtd).
  { destruct help_text_begins as [rest Hhelp].
    destruct (classify (strip (lower q))); auto; exfalso;
      cbn [answer_headers existsb] in Hs; unfold sentinel in Hs;
      rewrite ?Hhelp in Hs;
      repeat match type of Hs with
             | (_ || _)%bool = true =>
                 apply orb_true_iff in Hs; destruct Hs as [Hs | Hs]
             | false = true => discriminate Hs
             end;
      destruct Hlabel as [Hl | Hl];
      pose proof (prefix_first_char _ _ _ _ _ Hs Hl) as E; discriminate E. }
  split; [exact Hc | now apply classify_mtd_qtd].
Qed.

Lemma prefix_comparable h m s :
  prefix h s = true -> prefix m s = true -> prefix h m = true \/ prefix m h = true.
Proof.
  revert m s. induction h as [|a h IH]; intros m s Hh Hm.
  - left. destruct m; reflexivity.
  - destruct m as [|b m]; [right; reflexivity|].
    destruct s as [|c s]; [discriminate|]. simpl in *.
    destruct (ascii_dec a c) as [->|]; [|discriminate].
    destruct (ascii_dec b c) as [->|]; [|discriminate].
    destruct (ascii_dec c c); [|congruence]. now apply (IH m s).
Qed.

Lemma classify_security_types question_lower :
  classify question_lower = SecurityTypes -> asks_securities question_lower = false.
Proof.
  unfold classify.
  repeat match goal with
         | |- context [if ?b then _ else _] => destruct b eqn:?; try discriminate
         end.
  all: reflexivity.
Qed.

(** X15. An answer that begins with "Security types for" or with "Available
    security types:" was given by the security-types rule, to a question
    without "securities" in it: the trigger phrase "type of securities" of
    that rule never selects it, the securities rule answers first. *)
Theorem type_of_securities_never_selects (q : string) (self : DataChatbot)
    (s : string) :
  fst (process_question rt q self) = Ok s ->
  prefix "Security types for " s = true \/ prefix "Available security types: " s = true ->
  classify (strip (lower q)) = SecurityTypes /\
  str_in "securities" (strip (lower q)) = false /\
  str_in "type of securities" (strip (lower q)) = false.
Proof.
  intros Hs Hlabel. rewrite process_question_answer in Hs.
  apply answer_begins_with_header in Hs.
  assert (Hc : classify (strip (lower q)) = SecurityTypes).
  { destruct help_text_begins as [rest Hhelp].
    destruct (classify (strip (lower q))); auto; exfalso;
      cbn [answer_headers existsb] in Hs; unfold sentinel in Hs;
      rewrite ?Hhelp in Hs;
      repeat match type of Hs with
             | (_ || _)%bool = true =>
                 apply orb_true_iff in Hs; destruct Hs as [Hs | Hs]
             | false = true => discriminate Hs
             end;
      destruct Hlabel as [Hl | Hl];
      first [ pose proof (prefix_first_char _ _ _ _ _ Hs Hl) as E; discriminate E
            | destruct (prefix_comparable _ _ _ Hs Hl) as [E | E];
              vm_compute in E; discriminate E ]. }
  split; [exact Hc|].
  apply classify_security_types in Hc. unfold asks_securities, any_in in Hc.
  cbn [existsb] in Hc. apply orb_false_iff in Hc. destruct Hc as [Hsec _].
  split; [exact Hsec|].
  destruct (str_in "type of securities" (strip (lower q))) eqn:E; [|reflexivity].
  rewrite <- Hsec. symmetry. apply (str_in_trans _ "type of securities"); [reflexivity | exact E].
Qed.

End Headers.

(** *** The command-line loop *)

Section CommandLine.

Variable rt : PyRuntime.

Lemma is_space_lower c : is_space (lower_char c) = is_space c.
Proof. destruct c as [[] [] [] [] [] [] [] []]; reflexivity. Qed.

Lemma is_empty_lower s : is_empty (lower s) = is_empty s.
Proof. destruct s; reflexivity. Qed.

Lemma lstrip_lower s : lstrip (lower s) = lower (lstrip s).
Proof.
  induction s as [|c s IH]; simpl; [reflexivity|].
  rewrite is_space_lower. destruct (is_space c); [exact IH | reflexivity].
Qed.

Lemma rstrip_lower s : rstrip (lower s) = lower (rstrip s).
Proof.
  induction s as [|c s IH]; simpl; [reflexivity|].
  rewrite is_space_lower, IH, is_empty_lower.
  destruct (is_space c && is_empty (rstrip s)); reflexivity.
Qed.

(** Stripping and lowercasing commute. *)
Lemma strip_lower s : strip (lower s) = lower (strip s).
Proof. unfold strip. now rewrite lstrip_lower, rstrip_lower. Qed.

Lemma rstrip_rstrip s : rstrip (rstrip s) = rstrip s.
Proof.
  induction s as [|c s IH]; simpl; [reflexivity|].
  destruct (is_space c && is_empty (rstrip s)) eqn:E; [reflexivity|].
  simpl. now rewrite IH, E.
Qed.

Lemma head_kept_lstrip s : head_kept (lstrip s) = true.
Proof.
  induction s as [|c s IH]; simpl; [reflexivity|].
  destruct (is_space c) eqn:E; [exact IH | simpl; now rewrite E].
Qed.

Lemma head_kept_rstrip s : head_kept s = true -> head_kept (rstrip s) = true.
Proof.
  destruct s as [|c s]; simpl; [reflexivity|]. intros H.
  apply negb_true_iff in H. rewrite H. simpl. now rewrite H.
Qed.

Lemma lstrip_head_kept s : head_kept s = true -> lstrip s = s.
Proof.
  destruct s as [|c s]; simpl; [reflexivity|]. intros H.
  apply negb_true_iff in H. now rewrite H.
Qed.

(** Stripping twice is stripping once. *)
Lemma strip_strip s : strip (strip s) = strip s.
Proof.
  unfold strip.
  rewrite (lstrip_head_kept (rstrip (lstrip s))).
  - apply rstrip_rstrip.
  - apply head_kept_rstrip, head_kept_lstrip.
Qed.

(** A line that is not blank is not the empty question. *)
Lemma asked_not_empty text :
  is_empty (strip text) = false ->
  classify (strip (lower (strip text))) <> Empty.
Proof.
  intros H. rewrite strip_lower, strip_strip.
  unfold classify. rewrite is_empty_lower, H.
  repeat match goal with
         | |- context [if ?b then _ else _] => destruct b; [discriminate|]
         end.
  discriminate.
Qed.

Lemma run_process_question q bot :
  process_question rt q bot = (fst (process_question rt q bot), bot).
Proof. apply readonly_run, readonly_process_question. Qed.

Lemma main_loop_run (events : list input_event) (chatbot : DataChatbot) :
  exists farewell,
    fst (main_loop rt events chatbot)
    = (map (reply rt chatbot) (questions_asked events) ++ farewell)%list /\
    match snd (main_loop rt events chatbot) with
    | AtEndOfInput => farewell = []
    | Exited => farewell = [Print (nl ++ goodbye)]
                \/ farewell = [Print (nl ++ nl ++ goodbye)]
    end.
Proof.
  induction events as [|[text|] events IH]; cbn [main_loop questions_asked].
  - exists []. split; reflexivity.
  - destruct (is_quit (strip text)).
    + eexists. split; [reflexivity | left; reflexivity].
    + destruct (is_empty (strip text)); [exact IH|].
      destruct IH as [farewell [Hout Hstatus]]. exists farewell.
      rewrite run_process_question. cbn [map app].
      assert (Hreply : reply rt chatbot (strip text)
                       = match fst (process_question rt (strip text) chatbot) with
                         | Ok answer => Print (nl ++ "Bot: " ++ answer ++ nl)
                         | Raise e => ErrorReport e
                         end) by reflexivity.
      rewrite Hreply.
      destruct (fst (process_question rt (strip text) chatbot)) as [answer|e];
        destruct (main_loop rt events chatbot) as [printed status];
        cbn [fst snd] in *; rewrite Hout; split; auto.
  - eexists. split; [reflexivity | right; reflexivity].
Qed.


(** X17. What follows a quit word or an interrupt is not read: the loop
    prints the same and ends the same whatever comes after it. *)
Theorem main_loop_stops_at_quit (before after : list input_event)
    (stop : input_event) (chatbot : DataChatbot) :
  match stop with
  | Line text => is_quit (strip text) = true
  | Interrupt => True
  end ->
  main_loop rt (before ++ stop :: after) chatbot
  = main_loop rt (before ++ [stop]) chatbot /\
  snd (main_loop rt (before ++ stop :: after) chatbot) = Exited.
Proof.
  intros Hstop. revert chatbot.
  induction before as [|[text|] before IH]; intros chatbot; cbn [app main_loop].
  - destruct stop as [text|]; [rewrite Hstop|]; split; reflexivity.
  - destruct (is_quit (strip text)); [split; reflexivity|].
    destruct (is_empty (strip text)); [apply IH|].
    rewrite run_process_question.
    destruct (IH chatbot) as [H1 H2]. rewrite H1 in H2 |- *.
    destruct (fst (process_question rt (strip text) chatbot));
      destruct (main_loop rt (before ++ [stop]) chatbot);
      split; auto.
  - split; reflexivity.
Qed.

Lemma questions_asked_not_empty (events : list input_event) :
  Forall (fun q => classify (strip (lower q)) <> Empty) (questions_asked events).
Proof.
  induction events as [|[text|] events IH]; cbn [questions_asked]; try constructor.
  destruct (is_quit (strip text)); [constructor|].
  destruct (is_empty (strip text)) eqn:E; [exact IH|].
  constructor; [now apply asked_not_empty | exact IH].
Qed.

Lemma append_nl_inj (a b : string) : a ++ nl = b ++ nl -> a = b.
Proof.
  revert b. induction a as [|c a IH]; intros [|d b]; simpl; try reflexivity.
  - intros [= <- H]. destruct b; discriminate.
  - intros [= -> H]. destruct a; discriminate.
  - intros [= -> H]. f_equal. now apply IH.
Qed.

(** X18. The loop never hands [process_question] a question that is empty
    once lowercased and stripped, so "Please enter a question." is never
    among what it prints. *)
Theorem main_loop_never_prompts (events : list input_event) (chatbot : DataChatbot) :
  Forall (fun q => classify (strip (lower q)) <> Empty) (questions_asked events) /\
  ~ In (Print (nl ++ "Bot: " ++ "Please enter a question." ++ nl))
       (fst (main_loop rt events chatbot)).
Proof.
  split; [apply questions_asked_not_empty|].
  destruct (main_loop_run events chatbot) as [farewell [-> Hfarewell]].
  intros Hin. apply in_app_or in Hin. destruct Hin as [Hin | Hin].
  - apply in_map_iff in Hin. destruct Hin as [q [Hreply Hq]].
    pose proof (questions_asked_not_empty events) as Hall.
    rewrite Forall_forall in Hall. apply (Hall q Hq).
    unfold reply in Hreply.
    destruct (fst (process_question rt q chatbot)) as [answer|e] eqn:E;
      [|discriminate].
    injection Hreply as Hreply.
    apply (append_nl_inj answer "Please enter a question.") in Hreply.
    subst answer.
    rewrite process_question_answer in E.
    apply answer_begins_with_header in E.
    destruct (classify (strip (lower q))); [reflexivity | ..]; exfalso;
      vm_compute in E; discriminate E.
  - destruct (snd (main_loop rt events chatbot)); subst.
    + destruct Hfarewell as [-> | ->]; destruct Hin as [Hin | []];
        vm_compute in Hin; discriminate Hin.
    + destruct Hin.
Qed.

End CommandLine.

(** *** Custodians and counterparties *)

Section Parties.

Variable rt : PyRuntime.
Hypothesis rt_laws : PyRuntimeLaws rt.

Variables (self : DataChatbot) (hs : list HoldingRecord) (ts : list TradeRecord).
Hypothesis Hhs : holdings_df self = Some hs.
Hypothesis Hts : trades_df self = Some ts.



End Parties.

(* ================================================================= *)
(** ** The further properties on concrete input *)

Lemma extract_fund_name_sound_witness :
  fund_identifier demo_holdings demo_trades "Beta" /\
  (names_fund "YTD P&L for Beta" "Beta" = true
   \/ names_word_of "YTD P&L for Beta" "Beta" = true).
Proof.
  apply (extract_fund_name_sound ref_runtime ref_runtime_laws demo_bot
           demo_holdings demo_trades eq_refl eq_refl "YTD P&L for Beta" "Beta").
  vm_compute. reflexivity.
Defined.

Lemma extract_fund_name_prefers_full_name_witness :
  exists f', fst (extract_fund_name ref_runtime "securities of holdco 2, alpha" demo_bot)
             = Ok (Some f') /\
             fund_identifier demo_holdings demo_trades f' /\
             names_fund "securities of holdco 2, alpha" f' = true.
Proof.
  apply (extract_fund_name_prefers_full_name ref_runtime ref_runtime_laws demo_bot
           demo_holdings demo_trades eq_refl eq_refl
           "securities of holdco 2, alpha" "HoldCo 2").
  - right. left. simpl. tauto.
  - vm_compute. reflexivity.
Defined.

Lemma extract_fund_name_none_iff_witness :
  fst (extract_fund_name ref_runtime "How many buy trades?" demo_bot) = Ok None <->
  forall f, fund_identifier demo_holdings demo_trades f ->
            names_fund "How many buy trades?" f = false
            /\ names_word_of "How many buy trades?" f = false.
Proof.
  exact (extract_fund_name_none_iff ref_runtime ref_runtime_laws demo_bot
           demo_holdings demo_trades eq_refl eq_refl "How many buy trades?").
Defined.

Lemma fund_counts_bounded_witness : (0 < 2 <= List.length demo_holdings)%nat.
Proof.
  apply (proj1 (fund_counts_bounded ref_runtime demo_bot "Beta" 2) demo_holdings).
  - reflexivity.
  - vm_compute. reflexivity.
Defined.

Lemma securities_listed_once_witness :
  exists secs,
    fst (get_securities_for_fund ref_runtime "Beta" demo_bot) = Ok (Some secs) /\
    secs <> [] /\ NoDup secs /\
    forall c, In c secs <->
              In c (map SecName (filter (holding_matches "Beta") demo_holdings)).
Proof.
  apply (proj2 (securities_listed_once ref_runtime demo_bot "Beta"
                  (filter (holding_matches "Beta") demo_holdings)
                  ltac:(vm_compute; reflexivity))).
  vm_compute. discriminate.
Defined.

Lemma security_type_first_hit_witness :
  fst (process_question ref_runtime "Number of option and bond positions" demo_bot)
  = Ok "Number of Bond holdings: 2".
Proof.
  rewrite (security_type_first_hit ref_runtime ref_runtime_laws demo_bot
             demo_holdings eq_refl eq_refl "Number of option and bond positions"
             ltac:(vm_compute; reflexivity)).
  vm_compute. reflexivity.
Defined.


Lemma ranking_lists_each_fund_once_witness :
  exists ranking,
    fst (get_fund_performance_ranking ref_runtime demo_bot) = Ok ranking /\
    NoDup (map fst ranking) /\
    (forall k, In k (map fst ranking) <-> In (Some k) (map ShortName demo_holdings)) /\
    (forall k v, In (k, v) ranking ->
                 v = group_sum ref_runtime (group_cells ShortName PL_YTD demo_holdings k)).
Proof.
  exact (ranking_lists_each_fund_once ref_runtime ref_runtime_laws demo_bot
           demo_holdings eq_refl).
Defined.

Lemma best_and_worst_same_funds_witness :
  exists best worst,
    fst (get_best_performing_funds ref_runtime 10 demo_bot) = Ok best /\
    fst (get_worst_performing_funds ref_runtime 10 demo_bot) = Ok worst /\
    Permutation best worst.
Proof.
  destruct (best_and_worst_same_funds ref_runtime ref_runtime_laws demo_bot
              demo_holdings 10 eq_refl)
    as [best [worst [H1 [H2 [_ [_ [_ [_ H]]]]]]]].
  exists best, worst. split; [exact H1|]. split; [exact H2|].
  apply H. vm_compute. repeat constructor.
Defined.

Lemma trade_types_summary_counts_witness :
  exists summary,
    fst (get_trade_types_summary ref_runtime demo_bot) = Ok summary /\
    NoDup (map fst summary) /\
    (forall k, In k (map fst summary) <-> In (Some k) (map TradeTypeName demo_trades)) /\
    (forall k n, In (k, n) summary -> n = trades_typed k demo_trades /\ (0 < n)%nat) /\
    list_sum (map snd summary) = List.length (dropna (map TradeTypeName demo_trades)).
Proof.
  exact (trade_types_summary_counts ref_runtime ref_runtime_laws demo_bot demo_trades
           eq_refl).
Defined.

Lemma buys_and_sells_bounded_witness :
  fst (get_trades_by_type "BUY" demo_bot) = Ok 5%nat /\
  (trades_of_type "buy" demo_trades + trades_of_type "sell" demo_trades
   <= List.length demo_trades)%nat.
Proof.
  exact (buys_and_sells_bounded demo_bot demo_trades "BUY" eq_refl eq_refl).
Defined.

Lemma answers_begin_with_header_witness :
  existsb (fun h => prefix h "Total number of holdings for Beta: 2")
          (answer_headers TotalHoldings) = true.
Proof.
  apply (answers_begin_with_header ref_runtime "Total holdings for Beta" demo_bot).
  vm_compute. reflexivity.
Defined.

Lemma mtd_qtd_answers_have_no_ytd_phrase_witness :
  (classify (strip (lower "MTD for Beta")) = Mtd
   \/ classify (strip (lower "MTD for Beta")) = Qtd) /\
  asks_ytd (strip (lower "MTD for Beta")) = false.
Proof.
  apply (mtd_qtd_answers_have_no_ytd_phrase ref_runtime "MTD for Beta" demo_bot
           "MTD P&L for Beta: $0.00").
  - vm_compute. reflexivity.
  - left. reflexivity.
Defined.

Lemma type_of_securities_never_selects_witness :
  classify (strip (lower "Which asset types are there?")) = SecurityTypes /\
  str_in "securities" (strip (lower "Which asset types are there?")) = false /\
  str_in "type of securities" (strip (lower "Which asset types are there?")) = false.
Proof.
  apply (type_of_securities_never_selects ref_runtime "Which asset types are there?"
           demo_bot "Available security types: Equity, Bond").
  - vm_compute. reflexivity.
  - right. reflexivity.
Defined.

Lemma main_loop_stops_at_quit_witness :
  main_loop ref_runtime
    [Line "How many trades?"; Line "  Quit "; Line "List all funds"] demo_bot
  = main_loop ref_runtime [Line "How many trades?"; Line "  Quit "] demo_bot /\
  snd (main_loop ref_runtime
         [Line "How many trades?"; Line "  Quit "; Line "List all funds"] demo_bot)
  = Exited.
Proof.
  apply (main_loop_stops_at_quit ref_runtime [Line "How many trades?"]
           [Line "List all funds"] (Line "  Quit ") demo_bot).
  reflexivity.
Defined.


